(** * Conversion scripts and local model servers: a shallow embedding

    The Python sources embedded here are
    - [scripts/generate_llama_coreml.py]   ([Convert.convert_llama]),
    - [scripts/generate_tts_coreml.py]     ([Convert.convert_tts]),
    - [scripts/generate_voice_model.py]    ([Convert.generate_speaker_encoder]),
    - [PythonScripts/tts_server.py]        ([TtsServer.generate_speech]),
    - [PythonScripts/granite_server.py]    ([GraniteServer.generate]).

    Every call into torch, transformers, coremltools, flask or the operating
    system is an external call: whether it returns or raises is decided by a
    [world], and the scripts are functions of that world.  What the scripts
    print, write to disk and call is kept in an explicit state. *)

From Stdlib Require Import ZArith String Ascii List Bool Lia.
From stdpp Require Import base option list strings pretty gmap.
Import ListNotations.
Local Open Scope string_scope.

(** ** Python values, exceptions and the state-and-exception monad *)

Module Py.

(** A raised exception: whether it is an instance of [Exception] (what
    [except Exception] catches; [KeyboardInterrupt] and [SystemExit] are
    not) and its [str()]. *)
Record exn := Exn { exn_is_Exception : bool; exn_str : string }.

Inductive result (A : Type) : Type :=
| Ok (a : A)
| Raise (e : exn).
Arguments Ok {A} a.
Arguments Raise {A} e.

(** A computation over a state [S]: effects made before an exception is
    raised stay in the state. *)
Definition M (S A : Type) : Type := S -> result A * S.

Definition ret {S A} (a : A) : M S A := fun s => (Ok a, s).

Definition bind {S A B} (m : M S A) (k : A -> M S B) : M S B :=
  fun s => match m s with
           | (Ok a, s') => k a s'
           | (Raise e, s') => (Raise e, s')
           end.

Definition raise {S A} (e : exn) : M S A := fun s => (Raise e, s).

Definition lift {S A} (r : result A) : M S A := fun s => (r, s).

(** [try: body except Exception as e: handler e]. *)
Definition try_except {S A} (body : M S A) (handler : exn -> M S A) : M S A :=
  fun s => match body s with
           | (Ok a, s') => (Ok a, s')
           | (Raise e, s') =>
               if exn_is_Exception e then handler e s' else (Raise e, s')
           end.

(** The status a script run as [__main__] ends with: 0 when the module body
    runs to its end, 1 when an exception escapes (the interpreter prints the
    traceback). *)
Definition exit_status {A} (r : result A) : Z :=
  match r with Ok _ => 0 | Raise _ => 1 end.

(** *** Strings

    A [string] is the sequence of the characters of a Python [str], an
    [ascii] for each; the literals of the scripts are kept as their UTF-8
    bytes, which only the printed lines contain. *)

Definition nl : string := String "010"%char EmptyString.

(** [sub in s] *)
Fixpoint contains (sub s : string) : bool :=
  String.prefix sub s ||
  match s with
  | EmptyString => false
  | String _ s' => contains sub s'
  end.

Definition lower_char (c : ascii) : ascii :=
  let n := nat_of_ascii c in
  if (65 <=? n)%nat && (n <=? 90)%nat then ascii_of_nat (n + 32) else c.

(** [s.lower()], on the letters A-Z (the only ones that can lower to a
    letter of "gated"). *)
Fixpoint lower (s : string) : string :=
  match s with
  | EmptyString => EmptyString
  | String c s' => String (lower_char c) (lower s')
  end.

(** [s[n:]] *)
Fixpoint drop_prefix (n : nat) (s : string) : string :=
  match n, s with
  | O, _ => s
  | S n', EmptyString => EmptyString
  | S n', String _ s' => drop_prefix n' s'
  end.

Definition is_space (c : ascii) : bool :=
  let n := nat_of_ascii c in
  ((9 <=? n)%nat && (n <=? 13)%nat) || ((28 <=? n)%nat && (n <=? 32)%nat)
  || (n =? 133)%nat || (n =? 160)%nat.

Fixpoint lstrip (s : string) : string :=
  match s with
  | String c s' => if is_space c then lstrip s' else s
  | EmptyString => EmptyString
  end.

Fixpoint rstrip (s : string) : string :=
  match s with
  | EmptyString => EmptyString
  | String c s' =>
      match rstrip s' with
      | EmptyString => if is_space c then EmptyString else String c EmptyString
      | r => String c r
      end
  end.

(** [s.strip()] *)
Definition strip (s : string) : string := rstrip (lstrip s).

(** *** JSON values as Python objects

    [request.json] gives [None], [bool], [int], [str]; every other value
    (a float, a list, a nested dict) is kept by its Python type name, its
    [str()] and its truth value. *)
Inductive jval :=
| JNull
| JBool (b : bool)
| JInt (z : Z)
| JStr (s : string)
| JOther (tyname repr : string) (truth : bool).

(** The body of a request after [request.json]: a dict, or a value of
    another type. *)
Inductive jbody :=
| JDict (items : list (string * jval))
| JNotDict (v : jval).

Definition type_name (v : jval) : string :=
  match v with
  | JNull => "NoneType"
  | JBool _ => "bool"
  | JInt _ => "int"
  | JStr _ => "str"
  | JOther t _ _ => t
  end.

(** [bool(v)], as [if not v] tests it. *)
Definition truthy (v : jval) : bool :=
  match v with
  | JNull => false
  | JBool b => b
  | JInt z => negb (z =? 0)%Z
  | JStr s => negb (String.eqb s "")
  | JOther _ _ t => t
  end.

(** [str(v)], as an f-string formats it. *)
Definition py_str (v : jval) : string :=
  match v with
  | JNull => "None"
  | JBool true => "True"
  | JBool false => "False"
  | JInt z => pretty z
  | JStr s => s
  | JOther _ r _ => r
  end.

Fixpoint dict_lookup (k : string) (items : list (string * jval)) : option jval :=
  match items with
  | [] => None
  | (k', v) :: rest => if String.eqb k k' then Some v else dict_lookup k rest
  end.

(** [data.get(k, default)]; on a value that is not a dict the attribute
    lookup raises [AttributeError]. *)
Definition dict_get (data : jbody) (k : string) (default : jval) : result jval :=
  match data with
  | JDict items =>
      Ok (match dict_lookup k items with Some v => v | None => default end)
  | JNotDict v =>
      Raise (Exn true ("'" +:+ type_name v +:+ "' object has no attribute 'get'"))
  end.

End Py.

Declare Scope py_scope.
Delimit Scope py_scope with py.
Notation "x <- m ;; k" := (Py.bind m (fun x => k))
  (at level 100, m at next level, k at level 200, right associativity) : py_scope.
Notation "m ;; k" := (Py.bind m (fun _ => k))
  (at level 100, k at level 200, right associativity) : py_scope.

(** ** The three conversion scripts *)

Module Convert.
Import Py.
Local Open Scope py_scope.

Inductive dtype := torch_float32 | py_int.

(** A loaded object: the class and id [from_pretrained] was called with,
    or the torchaudio bundle [get_model] was called on. *)
Inductive model :=
| Pretrained (cls id : string) (torch_dtype : option dtype)
| BundleModel (bundle : string).

(** The id a loaded object was resolved from. *)
Definition model_id (m : model) : string :=
  match m with Pretrained _ id _ => id | BundleModel b => b end.

Inductive tensor :=
| Randint (low high : Z) (size : list Z)
| Randn (size : list Z).

Definition tensor_shape (t : tensor) : list Z :=
  match t with Randint _ _ sz => sz | Randn sz => sz end.

(** The [torch.nn.Module] subclasses the scripts declare. *)
Inductive wrapper :=
| LlamaWrapper (m : model)
| AcousticWrapper (m : model)
| TransformerWrapper (m : model)
| ModelWrapper (m : model).

Definition wrapped (w : wrapper) : model :=
  match w with
  | LlamaWrapper m | AcousticWrapper m | TransformerWrapper m | ModelWrapper m => m
  end.

(** What a [forward] computes from its named inputs: the calls it makes on
    the wrapped model and the part of the result it returns. *)
Inductive texpr :=
| TForward (m : model) (args : list (option string * string))
    (* self.model(...): one forward pass; keyword and input name *)
| TGenerateSpeech (m : model) (args : list string)
    (* self.model.generate_speech(...): the autoregressive loop *)
| TAttr (e : texpr) (attr : string)
| TItem (e : texpr) (i : Z).

Fixpoint forward_passes (e : texpr) : nat :=
  match e with
  | TForward _ _ => 1
  | TGenerateSpeech _ _ => 0
  | TAttr e' _ | TItem e' _ => forward_passes e'
  end.

Fixpoint generation_loops (e : texpr) : nat :=
  match e with
  | TForward _ _ => 0
  | TGenerateSpeech _ _ => 1
  | TAttr e' _ | TItem e' _ => generation_loops e'
  end.

(** The model a [forward] calls into. *)
Fixpoint callee (e : texpr) : model :=
  match e with
  | TForward m _ | TGenerateSpeech m _ => m
  | TAttr e' _ | TItem e' _ => callee e'
  end.

(** coremltools shapes and tensor declarations. *)
Inductive dim :=
| Fixed (n : Z)
| RangeDim (lower_bound upper_bound : Z).

Record TensorType := {
  tt_name : string;
  tt_shape : option (list dim);
  tt_dtype : option dtype }.

Inductive ComputeUnit := ALL | CPU_ONLY | CPU_AND_GPU | CPU_AND_NE.
Inductive target := iOS13 | iOS14 | iOS15 | iOS16 | iOS17.

(** The graph [torch.jit.trace] captured. *)
Record traced := Traced {
  traced_wrapper : wrapper;
  traced_example : list tensor }.

(** The arguments of one [ct.convert] call; [None] is a keyword the call
    does not pass. *)
Record convert_args := {
  ca_model : traced;
  ca_inputs : list TensorType;
  ca_outputs : list TensorType;
  ca_compute_units : option ComputeUnit;
  ca_minimum_deployment_target : option target }.

(** The converted model: it is described by the call that made it. *)
Record mlmodel := MLModel { ml_spec : convert_args }.

(** Does a declared axis accept the size [n], and a declared shape the
    concrete shape [sz]? *)
Definition dim_accepts (d : dim) (n : Z) : bool :=
  match d with
  | Fixed k => (n =? k)%Z
  | RangeDim lo hi => (lo <=? n)%Z && (n <=? hi)%Z
  end.

Fixpoint shape_accepts (ds : list dim) (sz : list Z) : bool :=
  match ds, sz with
  | [], [] => true
  | d :: ds', n :: sz' => dim_accepts d n && shape_accepts ds' sz'
  | _, _ => false
  end.

Definition tensor_accepts (t : TensorType) (sz : list Z) : bool :=
  match tt_shape t with
  | Some ds => shape_accepts ds sz
  | None => false
  end.

Fixpoint find_input (n : string) (ts : list TensorType) : option TensorType :=
  match ts with
  | [] => None
  | t :: ts' => if String.eqb (tt_name t) n then Some t else find_input n ts'
  end.

(** *** External calls, the world and the state *)

Inductive call :=
| from_pretrained (cls id : string) (torch_dtype : option dtype)
| get_model (bundle : string)
| eval_model (m : model)
| new_wrapper (w : wrapper)
| eval_wrapper (w : wrapper)
| torch_randint (low high : Z) (size : list Z)
| torch_randn (size : list Z)
| jit_trace (w : wrapper) (example : list tensor)
| ct_convert (a : convert_args)
| mlmodel_save (m : mlmodel) (path : string).

(** One external call and how it ended. *)
Inductive event := Ev (c : call) (raised : option exn).

Record world := {
  raises : call -> option exn;       (* [None]: the call returns *)
  vocab_size : model -> Z;           (* tokenizer.vocab_size *)
  returns_tuple : model -> bool;     (* isinstance(self.model(x), tuple) *)
  partial_on_failed_save : bool;     (* a failed save leaves files behind *)
  cwd : string }.

Inductive file :=
| Complete (m : mlmodel)
| Partial.

Record state := {
  stdout : list string;
  fs : gmap string file;
  log : list event }.

Definition init (fs0 : gmap string file) : state :=
  {| stdout := []; fs := fs0; log := [] |}.

Definition print (line : string) : M state unit :=
  fun s => (Ok tt, {| stdout := (stdout s ++ [line])%list; fs := fs s; log := log s |}).

Definition ext (w : world) (c : call) : M state unit :=
  fun s =>
    let s' := {| stdout := stdout s; fs := fs s;
                 log := (log s ++ [Ev c (raises w c)])%list |} in
    match raises w c with
    | None => (Ok tt, s')
    | Some e => (Raise e, s')
    end.

Definition load (w : world) (cls id : string) (dt : option dtype) : M state model :=
  ext w (from_pretrained cls id dt) ;; ret (Pretrained cls id dt).

Definition bundle_get_model (w : world) (bundle : string) : M state model :=
  ext w (get_model bundle) ;; ret (BundleModel bundle).

Definition new (w : world) (wr : wrapper) : M state wrapper :=
  ext w (new_wrapper wr) ;; ret wr.

Definition randint (w : world) (low high : Z) (size : list Z) : M state tensor :=
  ext w (torch_randint low high size) ;; ret (Randint low high size).

Definition randn (w : world) (size : list Z) : M state tensor :=
  ext w (torch_randn size) ;; ret (Randn size).

Definition trace (w : world) (wr : wrapper) (example : list tensor) : M state traced :=
  ext w (jit_trace wr example) ;; ret (Traced wr example).

Definition convert (w : world) (a : convert_args) : M state mlmodel :=
  ext w (ct_convert a) ;; ret (MLModel a).

(** [mlmodel.save(path)]: the package is at [path] when the call returns. *)
Definition save (w : world) (m : mlmodel) (path : string) : M state unit :=
  fun s =>
    let lg := (log s ++ [Ev (mlmodel_save m path) (raises w (mlmodel_save m path))])%list in
    match raises w (mlmodel_save m path) with
    | None =>
        (Ok tt, {| stdout := stdout s; fs := <[path := Complete m]> (fs s); log := lg |})
    | Some e =>
        (Raise e,
         {| stdout := stdout s;
            fs := if partial_on_failed_save w then <[path := Partial]> (fs s) else fs s;
            log := lg |})
    end.

(** *** The wrappers' [forward] methods *)

Definition forward (w : world) (wr : wrapper) : texpr :=
  match wr with
  | LlamaWrapper m =>
      let outputs := TForward m [(None, "input_ids")] in
      TAttr outputs "logits"
  | AcousticWrapper m =>
      TGenerateSpeech m ["input_ids"; "speaker_embeddings"]
  | TransformerWrapper m =>
      let output := TForward m [(Some "input_ids", "input_ids");
                                (Some "speaker_embeddings", "speaker_embeddings")] in
      TAttr output "spectrogram"
  | ModelWrapper m =>
      let output := TForward m [(None, "x")] in
      if returns_tuple w m then TItem output 0 else output
  end.

(** *** scripts/generate_llama_coreml.py *)

Definition primary_id : string := "meta-llama/Llama-3.2-1B-Instruct".
Definition fallback_id : string := "TinyLlama/TinyLlama-1.1B-Chat-v1.0".
Definition llama_output_path : string := "Llama3_1B.mlpackage".

(** The test of line 16: ["403" in str(e) or "gated" in str(e).lower()]. *)
Definition access_denied (e : exn) : bool :=
  contains "403" (exn_str e) || contains "gated" (lower (exn_str e)).

Definition convert_llama (w : world) : M state unit :=
  print "🧠 Loading Llama 3.2 1B-Instruct..." ;;
  let model_id := primary_id in
  loaded <-
    try_except
      (tokenizer <- load w "AutoTokenizer" model_id None ;;
       model <- load w "AutoModelForCausalLM" model_id (Some torch_float32) ;;
       ext w (eval_model model) ;;
       ret (Some (tokenizer, model)))
      (fun e =>
         print ("❌ Error loading " +:+ model_id +:+ ": " +:+ exn_str e) ;;
         if access_denied e then
           print (nl +:+ "⚠️ ACCESS DENIED: You have not accepted the license for Llama 3.2 on Hugging Face.") ;;
           print "👉 Go here to accept it: https://huggingface.co/meta-llama/Llama-3.2-1B-Instruct" ;;
           print (nl +:+ "🔄 Falling back to 'TinyLlama-1.1B-Chat' so you have a working brain...") ;;
           let model_id := fallback_id in
           try_except
             (tokenizer <- load w "AutoTokenizer" model_id None ;;
              model <- load w "AutoModelForCausalLM" model_id (Some torch_float32) ;;
              ext w (eval_model model) ;;
              print ("✅ Successfully loaded fallback model: " +:+ model_id) ;;
              ret (Some (tokenizer, model)))
             (fun fallback_error =>
                print ("❌ Fallback failed too: " +:+ exn_str fallback_error) ;;
                ret None)
         else ret None) ;;
  match loaded with
  | None => ret tt                                   (* the two [return]s *)
  | Some (tokenizer, model) =>
      print "⚡️ Creating Traceable Wrapper..." ;;
      wrapper <- new w (LlamaWrapper model) ;;
      ext w (eval_wrapper wrapper) ;;
      print "🎲 Tracing model..." ;;
      example_input <- randint w 0 (vocab_size w tokenizer) [1; 10]%Z ;;
      traced_model <- trace w wrapper [example_input] ;;
      print "🔄 Converting to CoreML (Float16)..." ;;
      let input_shape := [Fixed 1; RangeDim 1 2048] in
      mlmodel <- convert w
        {| ca_model := traced_model;
           ca_inputs := [ {| tt_name := "input_ids"; tt_shape := Some input_shape;
                             tt_dtype := Some py_int |} ];
           ca_outputs := [ {| tt_name := "logits"; tt_shape := None; tt_dtype := None |} ];
           ca_compute_units := Some CPU_AND_NE;
           ca_minimum_deployment_target := Some iOS16 |} ;;
      let output_path := llama_output_path in
      save w mlmodel output_path ;;
      print ("✅ Saved Llama 3.2 1B to " +:+ output_path)
  end.

(** *** scripts/generate_tts_coreml.py *)

Definition tts_output_path : string := "SpeechT5_Acoustic.mlpackage".

Definition convert_tts (w : world) : M state unit :=
  print "🗣️ Loading SpeechT5 TTS..." ;;
  let model_id := "microsoft/speecht5_tts" in
  let vocoder_id := "microsoft/speecht5_hifigan" in
  loaded <-
    try_except
      (processor <- load w "SpeechT5Processor" model_id None ;;
       model <- load w "SpeechT5ForTextToSpeech" model_id None ;;
       vocoder <- load w "SpeechT5HifiGan" vocoder_id None ;;
       ext w (eval_model model) ;;
       ext w (eval_model vocoder) ;;
       ret (Some model))
      (fun e =>
         print ("❌ Error loading model: " +:+ exn_str e) ;;
         ret None) ;;
  match loaded with
  | None => ret tt                                   (* [return] *)
  | Some model =>
      print "⚡️ Creating Traceable Wrapper..." ;;
      (* AcousticWrapper is declared and never instantiated *)
      wrapper <- new w (TransformerWrapper model) ;;
      ext w (eval_wrapper wrapper) ;;
      print "🎲 Tracing model..." ;;
      dummy_ids <- randint w 0 100 [1; 10]%Z ;;
      dummy_speaker <- randn w [1; 512]%Z ;;
      try_except
        (traced_model <- trace w wrapper [dummy_ids; dummy_speaker] ;;
         print "🔄 Converting to CoreML..." ;;
         mlmodel <- convert w
           {| ca_model := traced_model;
              ca_inputs :=
                [ {| tt_name := "input_ids"; tt_shape := Some [Fixed 1; RangeDim 1 512];
                     tt_dtype := Some py_int |};
                  {| tt_name := "speaker_embeddings"; tt_shape := Some [Fixed 1; Fixed 512];
                     tt_dtype := None |} ];
              ca_outputs := [ {| tt_name := "spectrogram"; tt_shape := None; tt_dtype := None |} ];
              ca_compute_units := None;
              ca_minimum_deployment_target := None |} ;;
         save w mlmodel tts_output_path ;;
         print "✅ Saved SpeechT5_Acoustic.mlpackage")
        (fun e =>
           print ("⚠️ Tracing failed (common for complex TTS): " +:+ exn_str e) ;;
           print "Falling back to simulated success for now so you can proceed with integration.")
  end.

(** *** scripts/generate_voice_model.py *)

Definition voice_output_path : string := "SpeakerEncoder.mlpackage".

(** [os.path.abspath] of a plain relative file name. *)
Definition abspath (w : world) (p : string) : string := cwd w +:+ "/" +:+ p.

Definition generate_speaker_encoder (w : world) : M state unit :=
  print "🚀 Starting Speaker Encoder Generation..." ;;
  print "📥 Downloading Wav2Vec2 base model..." ;;
  original_model <- bundle_get_model w "WAV2VEC2_ASR_BASE_960H" ;;
  ext w (eval_model original_model) ;;
  model <- new w (ModelWrapper original_model) ;;
  ext w (eval_wrapper model) ;;
  print "⚡️ Tracing model with dummy input..." ;;
  dummy_input <- randn w [1; 16000]%Z ;;
  traced_model <- trace w model [dummy_input] ;;
  print "🔄 Converting to CoreML format..." ;;
  mlmodel <- convert w
    {| ca_model := traced_model;
       ca_inputs := [ {| tt_name := "audio"; tt_shape := Some [Fixed 1; Fixed 16000];
                         tt_dtype := None |} ];
       ca_outputs := [ {| tt_name := "embedding"; tt_shape := None; tt_dtype := None |} ];
       ca_compute_units := None;
       ca_minimum_deployment_target := None |} ;;
  let output_path := voice_output_path in
  save w mlmodel output_path ;;
  print ("✅ Success! Saved to " +:+ abspath w output_path).

(** *** The three entry points ([if __name__ == "__main__":]) *)

Inductive script := Llama | Tts | Voice.

Definition main (sc : script) (w : world) : M state unit :=
  match sc with
  | Llama => convert_llama w
  | Tts => convert_tts w
  | Voice =>
      try_except (generate_speaker_encoder w)
        (fun e =>
           print ("❌ Error: " +:+ exn_str e) ;;
           print "Tip: Make sure you installed dependencies: pip install torch torchaudio coremltools")
  end.

Definition output_path (sc : script) : string :=
  match sc with
  | Llama => llama_output_path
  | Tts => tts_output_path
  | Voice => voice_output_path
  end.

End Convert.

(** ** Flask responses *)

Module Flask.
Import Py.

Inductive body :=
| Json (fields : list (string * jval))         (* jsonify({...}) *)
| SentFile (path mimetype : string).            (* send_file(...) *)

Record response := Response { resp_body : body; status : Z }.

Record request := Request { request_json : result jbody }.

(** The value of a field of a JSON body. *)
Definition field (k : string) (r : response) : option jval :=
  match resp_body r with
  | Json fields => dict_lookup k fields
  | SentFile _ _ => None
  end.

(** A JSON body with an ['error'] string. *)
Definition is_error (r : response) : bool :=
  match field "error" r with
  | Some (JStr _) => true
  | _ => false
  end.

(** A 2xx status. *)
Definition success_status (r : response) : bool :=
  (200 <=? status r)%Z && (status r <? 300)%Z.
End Flask.

(** ** PythonScripts/tts_server.py *)

Module TtsServer.
Import Py Flask.
Local Open Scope py_scope.

(** What the handler calls outside itself, in order. *)
Inductive event :=
| NamedTemporaryFile (suffix : string)
| os_path_exists (p : jval)
| tts_to_file (text speaker_wav language : jval) (file_path : string)
| send_file (path mimetype : string)
| logger_error (msg : string).

Record world := {
  tts : option string;            (* the global [tts]: [None] until load_model ran *)
  temp_name : result string;      (* the name of the temporary file, or the error *)
  path_on_disk : string -> bool;  (* os.stat succeeds on the path *)
  fd_open : Z -> bool;            (* os.stat succeeds on the descriptor *)
  tts_raises : jval -> jval -> jval -> string -> option exn;
  send_file_raises : string -> option exn }.

Definition state := list event.

Definition emit (ev : event) : M state unit :=
  fun s => (Ok tt, (s ++ [ev])%list).

Definition call_result {A} (ev : event) (r : result A) : M state A :=
  emit ev ;; lift r.

Definition call (ev : event) (r : option exn) : M state unit :=
  emit ev ;; match r with None => ret tt | Some e => raise e end.

(** [os.path.exists]: [False] when [os.stat] fails with [OSError] or
    [ValueError]; an argument that is no path and no descriptor is a
    [TypeError], which is not caught there. *)
Definition exists_ (w : world) (p : jval) : M state bool :=
  call_result (os_path_exists p)
    match p with
    | JStr s => Ok (path_on_disk w s)
    | JInt n => Ok (fd_open w n)
    | JBool b => Ok (fd_open w (if b then 1 else 0)%Z)
    | _ => Raise (Exn true ("stat: path should be string, bytes, os.PathLike or integer, not "
                             +:+ type_name p))
    end.

Definition default_speaker_wav : string := "reference_audio/pcpos_ref.wav".
Definition default_language : string := "en".

Definition generate_speech (w : world) (req : request) : M state response :=
  if negb (bool_decide (is_Some (tts w))) then
    ret (Response (Json [("error", JStr "Model not loaded")]) 503)
  else
    data <- lift (request_json req) ;;
    text <- lift (dict_get data "text" JNull) ;;
    speaker_wav <- lift (dict_get data "speaker_wav" (JStr default_speaker_wav)) ;;
    language <- lift (dict_get data "language" (JStr default_language)) ;;
    if negb (truthy text) then
      ret (Response (Json [("error", JStr "Missing 'text' parameter")]) 400)
    else
      try_except
        (output_path <- call_result (NamedTemporaryFile ".wav") (temp_name w) ;;
         found <- exists_ w speaker_wav ;;
         if negb found then
           ret (Response
                  (Json [("error",
                          JStr ("Speaker reference file not found: " +:+ py_str speaker_wav))])
                  400)
         else
           call (tts_to_file text speaker_wav language output_path)
                (tts_raises w text speaker_wav language output_path) ;;
           call (send_file output_path "audio/wav") (send_file_raises w output_path) ;;
           ret (Response (SentFile output_path "audio/wav") 200))
        (fun e =>
           emit (logger_error ("TTS Generation Error: " +:+ exn_str e)) ;;
           ret (Response (Json [("error", JStr (exn_str e))]) 500)).

(** The model was invoked: a [tts_to_file] call is in the log. *)
Definition is_inference (ev : event) : bool :=
  match ev with tts_to_file _ _ _ _ => true | _ => false end.

End TtsServer.

(** ** PythonScripts/granite_server.py *)

Module GraniteServer.
Import Py Flask.
Local Open Scope py_scope.

Record world := {
  model_loaded : bool;                (* the global [model] is not None *)
  tokenizer_loaded : bool;            (* the global [tokenizer] is not None *)
  tokenize : string -> result (list Z);     (* tokenizer(text)['input_ids'][0] *)
  cuda_is_available : bool;
  to_cuda_raises : option exn;
  model_generate : list Z -> jval -> jval -> result (list Z);
                                      (* the one sequence of model.generate(...) *)
  decode : list Z -> result string }.

(** The state is what the handler printed. *)
Definition state := list string.

Definition print (line : string) : M state unit :=
  fun s => (Ok tt, (s ++ [line])%list).

Definition default_system_prompt : string := "You are PCPOS, a helpful AI companion.".

(** The f-string of line 94. *)
Definition full_prompt_of (system_prompt user_prompt : jval) : string :=
  "### System:" +:+ nl +:+ py_str system_prompt +:+ nl +:+ nl
  +:+ "### User:" +:+ nl +:+ py_str user_prompt +:+ nl +:+ nl
  +:+ "### Assistant:" +:+ nl.

Definition generate (w : world) (req : request) : M state response :=
  if negb (model_loaded w) || negb (tokenizer_loaded w) then
    ret (Response (Json [("error", JStr "Model not loaded")]) 503)
  else
    try_except
      (data <- lift (request_json req) ;;
       user_prompt <- lift (dict_get data "prompt" (JStr "")) ;;
       max_tokens <- lift (dict_get data "max_tokens" (JInt 100)) ;;
       temperature <- lift (dict_get data "temperature" (JOther "float" "0.7" true)) ;;
       system_prompt <- lift (dict_get data "system_prompt" (JStr default_system_prompt)) ;;
       let full_prompt := full_prompt_of system_prompt user_prompt in
       inputs <- lift (tokenize w full_prompt) ;;
       let input_length := Z.of_nat (length inputs) in
       (if cuda_is_available w
        then match to_cuda_raises w with None => ret tt | Some e => raise e end
        else ret tt) ;;
       outputs <- lift (model_generate w inputs max_tokens temperature) ;;
       full_response <- lift (decode w outputs) ;;
       let response := strip (drop_prefix (String.length full_prompt) full_response) in
       let output_length := Z.of_nat (length outputs) in
       let completion_tokens := (output_length - input_length)%Z in
       ret (Response
              (Json [("response", JStr response);
                     ("prompt_tokens", JInt input_length);
                     ("completion_tokens", JInt completion_tokens)])
              200))
      (fun e =>
         print ("❌ Generation error: " +:+ exn_str e) ;;
         ret (Response (Json [("error", JStr (exn_str e))]) 500)).

End GraniteServer.

(** ** PythonScripts/tts_server.py: start-up and status *)

Module TtsBoot.
Import Py Flask.
Local Open Scope py_scope.

Record env := {
  cuda_is_available : bool;                  (* torch.cuda.is_available() *)
  mps_is_available : bool;                   (* torch.backends.mps.is_available() *)
  tts_init_raises : option exn;              (* TTS("tts_models/...") *)
  to_device_raises : string -> option exn }. (* .to(device) *)

Inductive event :=
| logger_info (msg : string)
| logger_error (msg : string)
| TTS_init (model_name : string)
| to_device (device : string)
| sys_exit (code : Z)
| app_run (host : string) (port : Z).

(** The global [tts] (kept as the device the model sits on, its
    [tts.device]) and what the module did. *)
Record state := { tts : option string; log : list event }.

Definition init : state := {| tts := None; log := [] |}.

Definition emit (ev : event) : M state unit :=
  fun s => (Ok tt, {| tts := tts s; log := (log s ++ [ev])%list |}).

Definition call (ev : event) (r : option exn) : M state unit :=
  emit ev ;; match r with None => ret tt | Some e => raise e end.

Definition set_tts (v : option string) : M state unit :=
  fun s => (Ok tt, {| tts := v; log := log s |}).

(** [sys.exit(code)] raises [SystemExit], which is no [Exception]. *)
Definition exit (code : Z) : M state unit :=
  emit (sys_exit code) ;; raise (Exn false (pretty code)).

Definition xtts_v2 : string := "tts_models/multilingual/multi-dataset/xtts_v2".

Definition load_model (e : env) : M state unit :=
  try_except
    (let device := if cuda_is_available e then "cuda" else "cpu" in
     let device := if mps_is_available e then "mps" else device in
     emit (logger_info ("Loading XTTS v2 on " +:+ device +:+ "...")) ;;
     call (TTS_init xtts_v2) (tts_init_raises e) ;;
     call (to_device device) (to_device_raises e device) ;;
     set_tts (Some device) ;;
     emit (logger_info "XTTS v2 Loaded Successfully!"))
    (fun ex =>
       emit (logger_error ("Failed to load TTS model: " +:+ exn_str ex)) ;;
       exit 1).

(** The [/status] route. *)
Definition status (s : state) : response :=
  Response
    (Json [("status", JStr (if bool_decide (is_Some (tts s)) then "ready" else "loading"));
           ("device", JStr (match tts s with Some d => d | None => "none" end))])
    200.

(** [if __name__ == '__main__':] *)
Definition main (e : env) : M state unit :=
  load_model e ;;
  emit (app_run "127.0.0.1" 5002).

(** The world a request handler runs in once the module is in state [s]. *)
Definition serving (s : state) (w : TtsServer.world) : TtsServer.world :=
  {| TtsServer.tts := tts s;
     TtsServer.temp_name := TtsServer.temp_name w;
     TtsServer.path_on_disk := TtsServer.path_on_disk w;
     TtsServer.fd_open := TtsServer.fd_open w;
     TtsServer.tts_raises := TtsServer.tts_raises w;
     TtsServer.send_file_raises := TtsServer.send_file_raises w |}.

Definition is_app_run (ev : event) : bool :=
  match ev with app_run _ _ => true | _ => false end.

End TtsBoot.

(** ** PythonScripts/granite_server.py: start-up, health and shutdown *)

Module GraniteBoot.
Import Py Flask.
Local Open Scope py_scope.

Inductive torch_dtype := float16 | float32.

Inductive event :=
| tokenizer_from_pretrained (path : string)
| model_from_pretrained (path : string) (dtype : torch_dtype)
    (device_map : option string) (low_cpu_mem_usage : bool)
| werkzeug_shutdown
| sys_exit (code : Z)
| app_run (host : string) (port : Z) (debug : bool).

Record env := {
  script_dir : string;       (* os.path.dirname(os.path.abspath(__file__)) *)
  cuda_is_available : bool;
  tokenizer_raises : string -> option exn;
  model_raises : string -> torch_dtype -> option string -> option exn }.

(** The globals [model] and [tokenizer] (kept as the path they were loaded
    from), what was printed and what was called. *)
Record state := {
  model : option string;
  tokenizer : option string;
  stdout : list string;
  log : list event }.

Definition init : state :=
  {| model := None; tokenizer := None; stdout := []; log := [] |}.

Definition print (line : string) : M state unit :=
  fun s => (Ok tt, {| model := model s; tokenizer := tokenizer s;
                      stdout := (stdout s ++ [line])%list; log := log s |}).

Definition emit (ev : event) : M state unit :=
  fun s => (Ok tt, {| model := model s; tokenizer := tokenizer s;
                      stdout := stdout s; log := (log s ++ [ev])%list |}).

Definition call (ev : event) (r : option exn) : M state unit :=
  emit ev ;; match r with None => ret tt | Some e => raise e end.

Definition set_tokenizer (v : option string) : M state unit :=
  fun s => (Ok tt, {| model := model s; tokenizer := v;
                      stdout := stdout s; log := log s |}).

Definition set_model (v : option string) : M state unit :=
  fun s => (Ok tt, {| model := v; tokenizer := tokenizer s;
                      stdout := stdout s; log := log s |}).

Definition exit (code : Z) : M state unit :=
  emit (sys_exit code) ;; raise (Exn false (pretty code)).

Fixpoint ends_with_slash (s : string) : bool :=
  match s with
  | EmptyString => false
  | String c EmptyString => Ascii.eqb c "/"
  | String _ s' => ends_with_slash s'
  end.

(** [os.path.join(a, b)] on POSIX. *)
Definition path_join (a b : string) : string :=
  if String.prefix "/" b then b
  else if String.eqb a "" || ends_with_slash a then a +:+ b
  else a +:+ "/" +:+ b.

Definition model_path (e : env) : string :=
  path_join (path_join (path_join (path_join (script_dir e) "..") "Resources") "models") "llm".

Definition load_model (e : env) : M state bool :=
  let model_path := model_path e in
  print ("🧠 Loading Granite 3.1 from: " +:+ model_path) ;;
  try_except
    (print "📝 Loading tokenizer..." ;;
     call (tokenizer_from_pretrained model_path) (tokenizer_raises e model_path) ;;
     set_tokenizer (Some model_path) ;;
     print "🔄 Loading model (this may take a minute)..." ;;
     let dtype := if cuda_is_available e then float16 else float32 in
     let device_map := if cuda_is_available e then Some "auto" else None in
     call (model_from_pretrained model_path dtype device_map true)
          (model_raises e model_path dtype device_map) ;;
     set_model (Some model_path) ;;
     print "✅ Granite 3.1 loaded successfully!" ;;
     print ("   Device: " +:+ (if cuda_is_available e then "CUDA" else "CPU")) ;;
     print "   Model: granite-3.1-3b-a800m-instruct" ;;
     ret true)
    (fun ex =>
       print ("❌ Error loading model: " +:+ exn_str ex) ;;
       ret false).

(** The [/health] route. *)
Definition health (s : state) : response :=
  Response
    (Json [("status", JStr (if bool_decide (is_Some (model s)) then "healthy" else "not_loaded"));
           ("model", JStr "granite-3.1-3b-a800m-instruct")])
    200.

(** The [/shutdown] route; [hook] is
    [request.environ.get('werkzeug.server.shutdown')] and how calling it
    ends. *)
Definition shutdown (hook : option (option exn)) : M state string :=
  print "🛑 Shutting down Granite server..." ;;
  match hook with
  | None => raise (Exn true "Not running with the Werkzeug Server")
  | Some r => call werkzeug_shutdown r ;; ret "Server shutting down..."
  end.

Fixpoint repeat_string (s : string) (n : nat) : string :=
  match n with
  | O => ""
  | S n' => s +:+ repeat_string s n'
  end.

(** [if __name__ == '__main__':] *)
Definition main (e : env) : M state unit :=
  print (repeat_string "=" 50) ;;
  print "🚀 PCPOS Granite 3.1 LLM Server" ;;
  print (repeat_string "=" 50) ;;
  loaded <- load_model e ;;
  (if negb loaded then
     print "Failed to load model. Exiting." ;;
     exit 1
   else ret tt) ;;
  print (nl +:+ "📡 Starting Flask server on http://127.0.0.1:5001") ;;
  print "   Endpoints:" ;;
  print "   - GET  /health" ;;
  print "   - POST /generate" ;;
  print "   - POST /shutdown" ;;
  print (nl +:+ "✨ Ready for requests!" +:+ nl) ;;
  emit (app_run "127.0.0.1" 5001 false).

(** The world a request handler runs in once the module is in state [s]. *)
Definition serving (s : state) (w : GraniteServer.world) : GraniteServer.world :=
  {| GraniteServer.model_loaded := bool_decide (is_Some (model s));
     GraniteServer.tokenizer_loaded := bool_decide (is_Some (tokenizer s));
     GraniteServer.tokenize := GraniteServer.tokenize w;
     GraniteServer.cuda_is_available := GraniteServer.cuda_is_available w;
     GraniteServer.to_cuda_raises := GraniteServer.to_cuda_raises w;
     GraniteServer.model_generate := GraniteServer.model_generate w;
     GraniteServer.decode := GraniteServer.decode w |}.

Definition is_app_run (ev : event) : bool :=
  match ev with app_run _ _ _ => true | _ => false end.

Definition is_model_load (ev : event) : bool :=
  match ev with model_from_pretrained _ _ _ _ => true | _ => false end.

End GraniteBoot.

(** ** load_models.py *)

Module LoadModels.
Import Py.
Local Open Scope py_scope.

Inductive call :=
| model_from_pretrained (path : string)      (* AutoModelForCausalLM.from_pretrained *)
| model_eval (path : string)
| tokenizer_from_pretrained (path : string)  (* AutoTokenizer.from_pretrained *)
| tokenize (path prompt : string)            (* tokenizer(prompt, return_tensors="pt") *)
| generate (path : string) (max_new_tokens : Z)
| decode (path : string).                    (* tokenizer.decode(outputs[0]) *)

Inductive event := Ev (c : call) (raised : option exn).

Record world := {
  path_exists : string -> bool;      (* os.path.exists *)
  raises : call -> option exn;
  decoded : string -> string }.      (* the text [decode] gives, by model path *)

Record state := { stdout : list string; log : list event }.

Definition init : state := {| stdout := []; log := [] |}.

Definition print (line : string) : M state unit :=
  fun s => (Ok tt, {| stdout := (stdout s ++ [line])%list; log := log s |}).

Definition ext (w : world) (c : call) : M state unit :=
  fun s =>
    let s' := {| stdout := stdout s; log := (log s ++ [Ev c (raises w c)])%list |} in
    match raises w c with
    | None => (Ok tt, s')
    | Some e => (Raise e, s')
    end.

Definition granite_model_path : string :=
  "/Users/pcpos/Desktop/MegamanCompanion/granite-3.1-language-models-main".
Definition llama_model_path : string :=
  "/Users/pcpos/Desktop/MegamanCompanion/llama-1b".

(** The module body, top to bottom. *)
Definition script (w : world) : M state unit :=
  (if negb (path_exists w granite_model_path) then
     raise (Exn true ("Granite model not found at " +:+ granite_model_path))
   else ret tt) ;;
  print ("Loading Granite model from '" +:+ granite_model_path +:+ "' ...") ;;
  ext w (model_from_pretrained granite_model_path) ;;
  ext w (model_eval granite_model_path) ;;
  ext w (tokenizer_from_pretrained granite_model_path) ;;
  print ("Granite 1B model loaded successfully!" +:+ nl) ;;
  (if negb (path_exists w llama_model_path) then
     raise (Exn true ("LLaMA model not found at " +:+ llama_model_path))
   else ret tt) ;;
  print ("Loading LLaMA model from '" +:+ llama_model_path +:+ "' ...") ;;
  ext w (model_from_pretrained llama_model_path) ;;
  ext w (model_eval llama_model_path) ;;
  ext w (tokenizer_from_pretrained llama_model_path) ;;
  print ("LLaMA 1B model loaded successfully!" +:+ nl) ;;
  let prompt := "Hello world!" in
  ext w (tokenize granite_model_path prompt) ;;
  ext w (generate granite_model_path 20) ;;
  ext w (decode granite_model_path) ;;
  print ("Granite output:" +:+ " " +:+ decoded w granite_model_path) ;;
  ext w (tokenize llama_model_path prompt) ;;
  ext w (generate llama_model_path 20) ;;
  ext w (decode llama_model_path) ;;
  print ("LLaMA output:" +:+ " " +:+ decoded w llama_model_path).

(** The model directory a call works on. *)
Definition call_path (c : call) : string :=
  match c with
  | model_from_pretrained p | model_eval p | tokenizer_from_pretrained p
  | tokenize p _ | generate p _ | decode p => p
  end.

Definition event_path (ev : event) : string :=
  match ev with Ev c _ => call_path c end.

Definition returned (ev : event) : bool :=
  match ev with Ev _ None => true | Ev _ (Some _) => false end.

(** The calls of the two loading sections, as opposed to those of the test
    at the end. *)
Definition is_load (c : call) : bool :=
  match c with
  | model_from_pretrained _ | model_eval _ | tokenizer_from_pretrained _ => true
  | tokenize _ _ | generate _ _ | decode _ => false
  end.

Definition event_call (ev : event) : call :=
  match ev with Ev c _ => c end.

End LoadModels.

(** ** Reading a run of a conversion script off its log *)

Module Job.
Import Py Convert.

(** The stages of an export job, by the calls the scripts make in each. *)
Inductive stage := resolving | wrapping | tracing | converting | saving.

Definition stage_of (c : call) : stage :=
  match c with
  | from_pretrained _ _ _ | get_model _ | eval_model _ => resolving
  | new_wrapper _ | eval_wrapper _ => wrapping
  | torch_randint _ _ _ | torch_randn _ | jit_trace _ _ => tracing
  | ct_convert _ => converting
  | mlmodel_save _ _ => saving
  end.

(** How a job ended.  A failure that is not recovered ends the job, so the
    job failed exactly when the last call it made raised; it reached the
    terminal state [saved] when its last call is a save that returned. *)
Inductive outcome :=
| saved (m : mlmodel) (path : string)
| failed (c : call) (e : exn)
| unfinished.

Definition outcome_of (lg : list event) : outcome :=
  match last lg with
  | Some (Ev c (Some e)) => failed c e
  | Some (Ev (mlmodel_save m p) None) => saved m p
  | _ => unfinished
  end.

(** The model id a resolving call names. *)
Definition loaded_id (c : call) : option string :=
  match c with
  | from_pretrained _ id _ => Some id
  | eval_model m => Some (model_id m)
  | get_model b => Some b
  | _ => None
  end.

(** The loaded model a call of a later stage works on. *)
Definition model_used (c : call) : option model :=
  match c with
  | new_wrapper wr | eval_wrapper wr | jit_trace wr _ => Some (wrapped wr)
  | ct_convert a => Some (wrapped (traced_wrapper (ca_model a)))
  | mlmodel_save m _ => Some (wrapped (traced_wrapper (ca_model (ml_spec m))))
  | _ => None
  end.

Definition is_downstream (ev : event) : bool :=
  match ev with
  | Ev c _ => match stage_of c with resolving => false | _ => true end
  end.

(** A load attempt of [id] begins with the tokenizer's [from_pretrained]. *)
Definition starts_attempt (id : string) (ev : event) : bool :=
  match ev with
  | Ev (from_pretrained cls id' _) _ =>
      String.eqb cls "AutoTokenizer" && String.eqb id' id
  | _ => false
  end.

Definition load_attempts (id : string) (lg : list event) : nat :=
  length (filter (fun ev => starts_attempt id ev = true) lg).

(** Does the log touch [id] at all in the resolving stage? *)
Definition names_id (id : string) (ev : event) : bool :=
  match ev with
  | Ev c _ => match loaded_id c with Some id' => String.eqb id' id | None => false end
  end.



(** An [Exception] the Llama script answers with the fallback. *)
Definition recovered_by_fallback (e : exn) : bool :=
  exn_is_Exception e && access_denied e.



(** The job reached [saved]: its last call is a save that returned. *)
Definition wrote_package (lg : list event) : bool :=
  match outcome_of lg with saved _ _ => true | _ => false end.


(** A [ct.convert] call that passes both [compute_units] and
    [minimum_deployment_target]. *)
Definition annotated (a : convert_args) : bool :=
  bool_decide (is_Some (ca_compute_units a))
  && bool_decide (is_Some (ca_minimum_deployment_target a)).

Definition exports_annotated (lg : list event) : bool :=
  forallb (fun ev => match ev with
                     | Ev (ct_convert a) _ => annotated a
                     | _ => true
                     end) lg.

End Job.

(** ** Orders and shapes in the log of a conversion script *)

Module Runs.
Import Py Convert Job.

Definition stage_rank (st : stage) : nat :=
  match st with
  | resolving => 0
  | wrapping => 1
  | tracing => 2
  | converting => 3
  | saving => 4
  end.

Definition event_rank (ev : event) : nat :=
  match ev with Ev c _ => stage_rank (stage_of c) end.

Fixpoint nondecreasing (l : list nat) : bool :=
  match l with
  | a :: (b :: _) as rest => (a <=? b)%nat && nondecreasing rest
  | _ => true
  end.

(** Every call that raised is the last call, unless it is [excused]. *)
Fixpoint raises_end_the_log (excused : call -> exn -> bool) (lg : list event) : bool :=
  match lg with
  | Ev c (Some e) :: (_ :: _) as rest =>
      excused c e && raises_end_the_log excused rest
  | _ :: rest => raises_end_the_log excused rest
  | [] => true
  end.

(** The one failure a script recovers from: a load call on the primary
    Llama descriptor that line 16 reads as an access denial. *)
Definition recovered (sc : script) (c : call) (e : exn) : bool :=
  match sc, loaded_id c with
  | Llama, Some id => String.eqb id primary_id && recovered_by_fallback e
  | _, _ => false
  end.


(** A declared axis is well formed: a positive size, or a range with
    [1 <= min <= max]. *)
Definition dim_ok (d : dim) : bool :=
  match d with
  | Fixed n => (1 <=? n)%Z
  | RangeDim lo hi => (1 <=? lo)%Z && (lo <=? hi)%Z
  end.

Definition declared_ok (t : TensorType) : bool :=
  match tt_shape t with
  | Some ds => forallb dim_ok ds
  | None => true
  end.

Fixpoint examples_conform (ts : list TensorType) (xs : list tensor) : bool :=
  match ts, xs with
  | [], [] => true
  | t :: ts', x :: xs' => tensor_accepts t (tensor_shape x) && examples_conform ts' xs'
  | _, _ => false
  end.

End Runs.

(** ** Some worlds to run the scripts in *)

Module Worlds.
Import Py Convert.

Definition world_of (raises : call -> option exn) : world :=
  {| raises := raises;
     vocab_size := fun _ => 32000%Z;
     returns_tuple := fun _ => true;
     partial_on_failed_save := false;
     cwd := "/work" |}.

(** Every call returns. *)
Definition quiet : world := world_of (fun _ => None).

Definition loads_primary (c : call) : bool :=
  match c with
  | from_pretrained _ id _ => String.eqb id primary_id
  | _ => false
  end.

Definition gated_error : exn :=
  Exn true "403 Client Error: Cannot access gated repo meta-llama/Llama-3.2-1B-Instruct".
Definition trace_error : exn :=
  Exn true "Could not trace: the number of decoder steps depends on the input".

(** The hub refuses the gated Llama repository. *)
Definition gated : world :=
  world_of (fun c => if loads_primary c then Some gated_error else None).


(** [torch.jit.trace] gives up. *)
Definition untraceable : world :=
  world_of (fun c => match c with
                     | jit_trace _ _ => Some trace_error
                     | _ => None
                     end).

Definition run (sc : script) (w : world) : result unit * state :=
  main sc w (init ∅).

End Worlds.

(** ** Some worlds and requests for the two servers *)

Module ServerWorlds.
Import Py Flask.

Definition tts_world (on_disk : string -> bool) : TtsServer.world :=
  {| TtsServer.tts := Some "cpu";
     TtsServer.temp_name := Ok "/tmp/tmp8x2k1q.wav";
     TtsServer.path_on_disk := on_disk;
     TtsServer.fd_open := fun _ => false;
     TtsServer.tts_raises := fun _ _ _ _ => None;
     TtsServer.send_file_raises := fun _ => None |}.

(** No reference audio is on disk. *)
Definition no_reference : TtsServer.world := tts_world (fun _ => false).

(** Only the default reference audio is on disk. *)
Definition with_reference : TtsServer.world :=
  tts_world (String.eqb TtsServer.default_speaker_wav).

Definition hello : request := Request (Ok (JDict [("text", JStr "hello")])).

(** A tokenizer with one token per character. *)
Definition char_tokens (s : string) : list Z :=
  map (fun c => Z.of_nat (nat_of_ascii c)) (list_ascii_of_string s).

Definition chars_of (toks : list Z) : string :=
  string_of_list_ascii (map (fun z => ascii_of_nat (Z.to_nat z)) toks).

(** A model that answers every prompt with the two tokens of "OK". *)
Definition granite : GraniteServer.world :=
  {| GraniteServer.model_loaded := true;
     GraniteServer.tokenizer_loaded := true;
     GraniteServer.tokenize := fun s => Ok (char_tokens s);
     GraniteServer.cuda_is_available := false;
     GraniteServer.to_cuda_raises := None;
     GraniteServer.model_generate := fun toks _ _ => Ok (toks ++ [79; 75])%Z%list;
     GraniteServer.decode := fun toks => Ok (chars_of toks) |}.

Definition hi : request := Request (Ok (JDict [("prompt", JStr "Hi")])).

(** What [granite] answers to [hi]: the framed prompt has 81 characters. *)
Definition hi_response : response :=
  Response (Json [("response", JStr "OK");
                  ("prompt_tokens", JInt 81);
                  ("completion_tokens", JInt 2)]) 200.

End ServerWorlds.

(** ** More worlds *)

Module MoreWorlds.
Import Py Convert Worlds.

(** The hub refuses every repository the same way. *)
Definition all_denied : world :=
  world_of (fun c => match c with
                     | from_pretrained _ _ _ => Some gated_error
                     | _ => None
                     end).

Definition convert_error : exn :=
  Exn true "Core ML conversion failed: unsupported op".

(** [ct.convert] gives up. *)
Definition unconvertible : world :=
  world_of (fun c => match c with
                     | ct_convert _ => Some convert_error
                     | _ => None
                     end).

Definition synth_error : exn := Exn true "MPS backend out of memory".

(** The model is loaded and the reference is on disk, but inference fails. *)
Definition failing_model : TtsServer.world :=
  {| TtsServer.tts := Some "mps";
     TtsServer.temp_name := Ok "/tmp/tmp8x2k1q.wav";
     TtsServer.path_on_disk := String.eqb TtsServer.default_speaker_wav;
     TtsServer.fd_open := fun _ => false;
     TtsServer.tts_raises := fun _ _ _ _ => Some synth_error;
     TtsServer.send_file_raises := fun _ => None |}.

(** A body that is a JSON array. *)
Definition array_body : Flask.request :=
  Flask.Request (Ok (JNotDict (JOther "list" "['hello']" true))).


Definition download_error : exn := Exn true "Failed to download model files".

(** A machine where the XTTS files cannot be fetched. *)
Definition no_xtts : TtsBoot.env :=
  {| TtsBoot.cuda_is_available := false;
     TtsBoot.mps_is_available := false;
     TtsBoot.tts_init_raises := Some download_error;
     TtsBoot.to_device_raises := fun _ => None |}.

Definition weights_error : exn := Exn true "no file named model.safetensors found".

(** A CPU machine with the Granite files in place. *)
Definition granite_box : GraniteBoot.env :=
  {| GraniteBoot.script_dir := "/opt/pcpos/PythonScripts";
     GraniteBoot.cuda_is_available := false;
     GraniteBoot.tokenizer_raises := fun _ => None;
     GraniteBoot.model_raises := fun _ _ _ => None |}.

(** The same machine with the tokenizer in place and the weights missing. *)
Definition no_weights : GraniteBoot.env :=
  {| GraniteBoot.script_dir := "/opt/pcpos/PythonScripts";
     GraniteBoot.cuda_is_available := false;
     GraniteBoot.tokenizer_raises := fun _ => None;
     GraniteBoot.model_raises := fun _ _ _ => Some weights_error |}.

(** Both model directories are there and every call returns. *)
Definition both_models : LoadModels.world :=
  {| LoadModels.path_exists := fun _ => true;
     LoadModels.raises := fun _ => None;
     LoadModels.decoded := fun p =>
       if String.eqb p LoadModels.granite_model_path
       then "Hello world! I am Granite." else "Hello world! I am LLaMA." |}.

(** Only the Granite directory is there. *)
Definition granite_only : LoadModels.world :=
  {| LoadModels.path_exists := String.eqb LoadModels.granite_model_path;
     LoadModels.raises := fun _ => None;
     LoadModels.decoded := fun _ => "" |}.

(** No model directory is there. *)
Definition no_models : LoadModels.world :=
  {| LoadModels.path_exists := fun _ => false;
     LoadModels.raises := fun _ => None;
     LoadModels.decoded := fun _ => "" |}.

(** Both model directories are there; Granite's [generate] runs out of
    memory. *)
Definition granite_out_of_memory : LoadModels.world :=
  {| LoadModels.path_exists := fun _ => true;
     LoadModels.raises := fun c =>
       match c with
       | LoadModels.generate p _ =>
           if String.eqb p LoadModels.granite_model_path
           then Some (Exn true "out of memory") else None
       | _ => None
       end;
     LoadModels.decoded := fun _ => "" |}.

End MoreWorlds.

(** * Properties *)

Import Py Convert Job Worlds Flask ServerWorlds Runs MoreWorlds.

(** ** Stepping through a script *)

Arguments access_denied : simpl never.

(** The literals of a script play no part in its control flow: they are
    named before the case analysis and given back by [reveal]. *)
Ltac hide_strings :=
  repeat match goal with
         | |- context [String ?a ?s] =>
             let x := fresh "str" in set (x := String a s)
         end.

Ltac reveal :=
  repeat match goal with
         | x := _ : string |- _ => subst x
         end.

Ltac unfold_script :=
  unfold main, convert_llama, convert_tts, generate_speaker_encoder.

Ltac unfold_steps :=
  unfold load, bundle_get_model, new, randint, randn, trace, convert, save, ext,
    Convert.print, try_except, bind, ret, init.

(** Case analysis on the next thing the world decides. *)
Ltac next_case :=
  match goal with
  | |- context [raises ?w ?c] => destruct (raises w c) eqn:?
  | |- context [if exn_is_Exception ?e then _ else _] =>
      destruct (exn_is_Exception e) eqn:?
  | |- context [if access_denied ?e then _ else _] =>
      destruct (access_denied e) eqn:?
  | |- context [if partial_on_failed_save ?w then _ else _] =>
      destruct (partial_on_failed_save w) eqn:?
  end.

Ltac run_script :=
  unfold_script; hide_strings; unfold_steps; cbn; repeat (next_case; cbn).

(** Membership in a log that is written out. *)
Ltac in_log H :=
  cbn in H;
  repeat match type of H with
         | _ \/ _ => destruct H as [H | H]
         | False => destruct H
         end;
  try discriminate H; try (injection H as; subst).

(** The same for the two request handlers. *)
Ltac unfold_handler :=
  unfold TtsServer.generate_speech, GraniteServer.generate,
    TtsServer.exists_, TtsServer.call_result, TtsServer.call, TtsServer.emit,
    GraniteServer.print, try_except, bind, ret, lift, raise.

Ltac handler_case :=
  match goal with
  | |- context [match dict_lookup ?k ?items with _ => _ end] =>
      destruct (dict_lookup k items) as [?|] eqn:?
  | |- context [TtsServer.temp_name ?w] => destruct (TtsServer.temp_name w) eqn:?
  | |- context [match ?v with JNull => _ | _ => _ end] => is_var v; destruct v
  | |- context [TtsServer.path_on_disk ?w ?s] =>
      destruct (TtsServer.path_on_disk w s) eqn:?
  | |- context [TtsServer.fd_open ?w ?n] => destruct (TtsServer.fd_open w n) eqn:?
  | |- context [TtsServer.tts_raises ?w ?a ?b ?c ?d] =>
      destruct (TtsServer.tts_raises w a b c d) eqn:?
  | |- context [TtsServer.send_file_raises ?w ?a] =>
      destruct (TtsServer.send_file_raises w a) eqn:?
  | |- context [if exn_is_Exception ?e then _ else _] =>
      destruct (exn_is_Exception e) eqn:?
  | |- context [if ?b then _ else _] => is_var b; destruct b
  end.

Ltac granite_case :=
  match goal with
  | |- context [GraniteServer.tokenize ?w ?s] =>
      destruct (GraniteServer.tokenize w s) eqn:?
  | |- context [GraniteServer.cuda_is_available ?w] =>
      destruct (GraniteServer.cuda_is_available w) eqn:?
  | |- context [GraniteServer.to_cuda_raises ?w] =>
      destruct (GraniteServer.to_cuda_raises w) eqn:?
  | |- context [GraniteServer.model_generate ?w ?a ?b ?c] =>
      destruct (GraniteServer.model_generate w a b c) eqn:?
  | |- context [GraniteServer.decode ?w ?a] =>
      destruct (GraniteServer.decode w a) eqn:?
  | |- context [if exn_is_Exception ?e then _ else _] =>
      destruct (exn_is_Exception e) eqn:?
  end.

Ltac in_events :=
  repeat match goal with
         | H : In _ (_ :: _) |- _ =>
             destruct H as [H | H]; [try discriminate H; try (injection H as; subst) |]
         | H : In _ (_ ++ _) |- _ => cbn in H
         | H : In _ [] |- _ => destruct H
         end.

(** C7: in each of the three scripts, the wrapper handed to the tracer calls
    the wrapped model's forward pass exactly once and never its generation
    loop ([generate_speech]); the model it calls is the one it wraps, and the
    wrapper is never the [AcousticWrapper]. *)
Theorem traced_wrapper_single_forward_pass :
  forall (sc : script) (w : world) (fs0 : gmap string file) r s' wr ex res,
    main sc w (init fs0) = (r, s') ->
    In (Ev (jit_trace wr ex) res) (log s') ->
    forward_passes (forward w wr) = 1
    /\ generation_loops (forward w wr) = 0
    /\ callee (forward w wr) = wrapped wr
    /\ (forall m, wr <> AcousticWrapper m).
Proof.
  intros sc w fs0 r s' wr ex res Hrun Hin. revert Hrun.
  destruct sc; run_script; intros Hrun; injection Hrun as <- <-;
    in_log Hin; cbn;
    try (destruct (returns_tuple w _)); cbn; repeat split; congruence.
Qed.

Lemma traced_wrapper_single_forward_pass_witness :
  In (Ev (jit_trace (TransformerWrapper (Pretrained "SpeechT5ForTextToSpeech" "microsoft/speecht5_tts" None))
            [Randint 0 100 [1; 10]%Z; Randn [1; 512]%Z]) None)
     (log (run Tts quiet).2)
  /\ forward_passes
       (forward quiet (TransformerWrapper (Pretrained "SpeechT5ForTextToSpeech" "microsoft/speecht5_tts" None))) = 1.
Proof.
  assert (Hin : In (Ev (jit_trace (TransformerWrapper (Pretrained "SpeechT5ForTextToSpeech" "microsoft/speecht5_tts" None))
                          [Randint 0 100 [1; 10]%Z; Randn [1; 512]%Z]) None)
                   (log (run Tts quiet).2)).
  { vm_compute. tauto. }
  split; [exact Hin |].
  refine (proj1 (traced_wrapper_single_forward_pass Tts quiet ∅
                   (run Tts quiet).1 (run Tts quiet).2
                   (TransformerWrapper (Pretrained "SpeechT5ForTextToSpeech" "microsoft/speecht5_tts" None))
                   [Randint 0 100 [1; 10]%Z; Randn [1; 512]%Z] None _ Hin)).
  vm_compute; reflexivity.
Defined.

(** ** The access fallback of the Llama script *)



(** ** Trace failures of the TTS script *)

(** C2: whenever [torch.jit.trace] raises an [Exception] in the TTS script,
    [convert_tts] returns normally (no exception escapes, the process status
    is 0), the diagnostic line with the error text is printed, and the job
    ends there, at the failed trace call. *)
Theorem tts_trace_failure_is_recoverable :
  forall (w : world) (fs0 : gmap string file) r s' wr ex e,
    convert_tts w (init fs0) = (r, s') ->
    In (Ev (jit_trace wr ex) (Some e)) (log s') ->
    exn_is_Exception e = true ->
    r = Ok tt /\ exit_status r = 0%Z
    /\ In ("⚠️ Tracing failed (common for complex TTS): " +:+ exn_str e) (stdout s')
    /\ outcome_of (log s') = failed (jit_trace wr ex) e.
Proof.
  intros w fs0 r s' wr ex e Hrun Hin Hexc. revert Hrun.
  run_script; intros Hrun; injection Hrun as <- <-; in_log Hin;
    try congruence; cbn [stdout log]; reveal;
    repeat split; cbn; tauto.
Qed.

Lemma tts_trace_failure_is_recoverable_witness :
  In (Ev (jit_trace (TransformerWrapper (Pretrained "SpeechT5ForTextToSpeech" "microsoft/speecht5_tts" None))
            [Randint 0 100 [1; 10]%Z; Randn [1; 512]%Z]) (Some trace_error))
     (log (run Tts untraceable).2)
  /\ exn_is_Exception trace_error = true
  /\ (run Tts untraceable).1 = Ok tt.
Proof.
  assert (Hin : In (Ev (jit_trace (TransformerWrapper (Pretrained "SpeechT5ForTextToSpeech" "microsoft/speecht5_tts" None))
                          [Randint 0 100 [1; 10]%Z; Randn [1; 512]%Z]) (Some trace_error))
                   (log (run Tts untraceable).2)) by (vm_compute; tauto).
  split; [exact Hin |].
  split; [reflexivity |].
  refine (proj1 (tts_trace_failure_is_recoverable untraceable ∅
                   (run Tts untraceable).1 (run Tts untraceable).2 _ _ trace_error
                   _ Hin _)).
  - vm_compute; reflexivity.
  - reflexivity.
Defined.

(** ** The shape contract of the Llama package *)

(** C3: when the Llama script reaches [saved], the package at its output
    path was traced on a dummy input of shape (1, 10), its input named
    [input_ids] is declared with the shape (1, RangeDim(1, 2048)) and so
    accepts every sequence length from 1 to 2048, and its one output is named
    [logits]. *)
Theorem llama_package_shape_contract :
  forall (w : world) (fs0 : gmap string file) r s' m p,
    convert_llama w (init fs0) = (r, s') ->
    outcome_of (log s') = saved m p ->
    p = llama_output_path
    /\ fs s' !! llama_output_path = Some (Complete m)
    /\ map tensor_shape (traced_example (ca_model (ml_spec m))) = [[1; 10]%Z]
    /\ (exists t, find_input "input_ids" (ca_inputs (ml_spec m)) = Some t
          /\ tt_shape t = Some [Fixed 1; RangeDim 1 2048]
          /\ forall n : Z, (1 <= n <= 2048)%Z -> tensor_accepts t [1; n]%Z = true)
    /\ map tt_name (ca_outputs (ml_spec m)) = ["logits"].
Proof.
  intros w fs0 r s' m p Hrun Ho. revert Hrun.
  run_script; intros Hrun; injection Hrun as <- <-; cbn in Ho;
    try discriminate Ho; injection Ho as <- <-; cbn [fs]; reveal;
    (split; [reflexivity |]); (split; [apply lookup_insert_eq |]);
    (split; [reflexivity |]); (split; [| reflexivity]);
    (eexists; split; [reflexivity |]; split; [reflexivity |]);
    intros n Hn; cbn; rewrite ?andb_true_r, andb_true_iff, !Z.leb_le; lia.
Qed.

Lemma llama_package_shape_contract_witness :
  wrote_package (log (run Llama quiet).2) = true
  /\ (exists m, fs (run Llama quiet).2 !! llama_output_path = Some (Complete m)
               /\ map tt_name (ca_outputs (ml_spec m)) = ["logits"]).
Proof.
  split; [vm_compute; reflexivity |].
  edestruct (llama_package_shape_contract quiet ∅
               (run Llama quiet).1 (run Llama quiet).2) as (_ & Hfs & _ & _ & Hout);
    [vm_compute; reflexivity | vm_compute; reflexivity |].
  eexists; split; [exact Hfs | exact Hout].
Defined.

(** ** What a job leaves on disk *)



(** ** How an entry point ends *)




(** ** The annotations of the export call *)

(** C8, as stated, fails: in a world where every call returns, the TTS
    script reaches [saved] with a [ct.convert] call that passes neither
    [compute_units] nor [minimum_deployment_target]; so does the speaker
    encoder script. *)
Lemma tts_and_voice_exports_are_not_annotated :
  wrote_package (log (run Tts quiet).2) = true
  /\ exports_annotated (log (run Tts quiet).2) = false
  /\ wrote_package (log (run Voice quiet).2) = true
  /\ exports_annotated (log (run Voice quiet).2) = false.
Proof. repeat split; vm_compute; reflexivity. Qed.

(** C8, amended: the export call of the Llama script passes the compute
    affinity [CPU_AND_NE] and the minimum deployment target [iOS16]; the
    export calls of the TTS and speaker encoder scripts pass neither. *)
Theorem export_annotations :
  forall (sc : script) (w : world) (fs0 : gmap string file) r s' a res,
    main sc w (init fs0) = (r, s') ->
    In (Ev (ct_convert a) res) (log s') ->
    (ca_compute_units a, ca_minimum_deployment_target a)
    = match sc with
      | Llama => (Some CPU_AND_NE, Some iOS16)
      | Tts | Voice => (None, None)
      end.
Proof.
  intros sc w fs0 r s' a res Hrun Hin. revert Hrun.
  destruct sc; run_script; intros Hrun; injection Hrun as <- <-; in_log Hin; reflexivity.
Qed.

Lemma export_annotations_witness :
  wrote_package (log (run Llama quiet).2) = true
  /\ exports_annotated (log (run Llama quiet).2) = true
  /\ (ca_compute_units
        {| ca_model := Traced (LlamaWrapper (Pretrained "AutoModelForCausalLM" primary_id
                                               (Some torch_float32)))
                              [Randint 0 32000 [1; 10]%Z];
           ca_inputs := [ {| tt_name := "input_ids";
                             tt_shape := Some [Fixed 1; RangeDim 1 2048];
                             tt_dtype := Some py_int |} ];
           ca_outputs := [ {| tt_name := "logits"; tt_shape := None; tt_dtype := None |} ];
           ca_compute_units := Some CPU_AND_NE;
           ca_minimum_deployment_target := Some iOS16 |},
      Some iOS16) = (Some CPU_AND_NE, Some iOS16).
Proof.
  split; [vm_compute; reflexivity |].
  split; [vm_compute; reflexivity |].
  refine (export_annotations Llama quiet ∅ (run Llama quiet).1 (run Llama quiet).2
            _ None _ _).
  - vm_compute; reflexivity.
  - vm_compute. tauto.
Defined.

(** ** The speech service *)

(** C5: for a request to [/tts] whose body is a JSON object (and a temporary
    file whose creation returns or raises an [Exception]): when the model is
    not loaded, or the object has no ['text'], or its speaker reference - given
    or defaulted - is a path that is not on disk, the handler returns a JSON
    body with an ['error'] string and a status outside 2xx, and [tts_to_file]
    is never called. *)
Theorem tts_rejects_before_inference :
  forall (w : TtsServer.world) (req : request) r s',
    TtsServer.generate_speech w req [] = (r, s') ->
    (forall e, TtsServer.temp_name w = Raise e -> exn_is_Exception e = true) ->
    (TtsServer.tts w = None
     \/ (exists items, request_json req = Ok (JDict items)
          /\ (dict_lookup "text" items = None
              \/ exists p,
                   dict_get (JDict items) "speaker_wav" (JStr "reference_audio/pcpos_ref.wav")
                   = Ok (JStr p)
                   /\ TtsServer.path_on_disk w p = false))) ->
    exists resp, r = Ok resp /\ is_error resp = true /\ success_status resp = false
      /\ Forall (fun ev => TtsServer.is_inference ev = false) s'.
Proof.
  intros w req r s' Hrun Htmp Hcase. revert Hrun. unfold_handler.
  destruct Hcase as [Hnone | (items & Hjson & Hcase)].
  - rewrite Hnone. cbn. intros Hrun; injection Hrun as <- <-.
    eexists; repeat split; constructor.
  - destruct (TtsServer.tts w) as [dev|]; cbn.
    2:{ intros Hrun; injection Hrun as <- <-. eexists; repeat split; constructor. }
    rewrite Hjson. cbn.
    destruct Hcase as [Htext | (p & Hsp & Hdisk)].
    + rewrite Htext. cbn. intros Hrun; injection Hrun as <- <-.
      eexists; repeat split; constructor.
    + cbn in Hsp. injection Hsp as Hsp.
      change TtsServer.default_speaker_wav with "reference_audio/pcpos_ref.wav".
      rewrite Hsp.
      destruct (truthy _); cbn.
      2:{ intros Hrun; injection Hrun as <- <-. eexists; repeat split; constructor. }
      destruct (TtsServer.temp_name w) as [f | e]; cbn.
      * rewrite Hdisk. cbn. intros Hrun; injection Hrun as <- <-.
        eexists; repeat split; repeat constructor.
      * rewrite (Htmp e eq_refl). cbn. intros Hrun; injection Hrun as <- <-.
        eexists; repeat split; repeat constructor.
Qed.

Lemma tts_rejects_before_inference_witness :
  TtsServer.path_on_disk no_reference "reference_audio/pcpos_ref.wav" = false
  /\ exists resp,
       (TtsServer.generate_speech no_reference hello []).1 = Ok resp
       /\ is_error resp = true /\ success_status resp = false
       /\ Forall (fun ev => TtsServer.is_inference ev = false)
                 (TtsServer.generate_speech no_reference hello []).2.
Proof.
  split; [reflexivity |].
  apply (tts_rejects_before_inference no_reference hello).
  - vm_compute; reflexivity.
  - intros e He. vm_compute in He. discriminate He.
  - right. exists [("text", JStr "hello")]. split; [reflexivity |].
    right. exists "reference_audio/pcpos_ref.wav". split; reflexivity.
Defined.

(** C9: for a request to [/tts] whose JSON object omits [speaker_wav], every
    existence check and every [tts_to_file] call of the handler gets the path
    "reference_audio/pcpos_ref.wav"; when it omits [language], every
    [tts_to_file] call gets "en"; and when the model is loaded, the text is
    given, the temporary file is created and that default path is on disk,
    both calls are made, with those defaults. *)
Theorem tts_optional_fields_default :
  forall (w : TtsServer.world) (req : request) items r s',
    request_json req = Ok (JDict items) ->
    TtsServer.generate_speech w req [] = (r, s') ->
    (dict_lookup "speaker_wav" items = None ->
       (forall p, In (TtsServer.os_path_exists p) s' ->
          p = JStr "reference_audio/pcpos_ref.wav")
       /\ (forall t sp l f, In (TtsServer.tts_to_file t sp l f) s' ->
              sp = JStr "reference_audio/pcpos_ref.wav"))
    /\ (dict_lookup "language" items = None ->
       forall t sp l f, In (TtsServer.tts_to_file t sp l f) s' -> l = JStr "en")
    /\ (forall text f,
          TtsServer.tts w <> None ->
          dict_lookup "text" items = Some text -> truthy text = true ->
          TtsServer.temp_name w = Ok f ->
          dict_lookup "speaker_wav" items = None ->
          dict_lookup "language" items = None ->
          TtsServer.path_on_disk w "reference_audio/pcpos_ref.wav" = true ->
          In (TtsServer.os_path_exists (JStr "reference_audio/pcpos_ref.wav")) s'
          /\ In (TtsServer.tts_to_file text (JStr "reference_audio/pcpos_ref.wav")
                   (JStr "en") f) s').
Proof.
  intros w req items r s' Hjson Hrun. revert Hrun. unfold_handler.
  rewrite Hjson.
  destruct (TtsServer.tts w) as [dev|]; cbn.
  2:{ intros Hrun; injection Hrun as <- <-.
      repeat split; try (intros; contradiction); congruence. }
  destruct (dict_lookup "text" items) as [text|] eqn:Htext; cbn.
  2:{ intros Hrun; injection Hrun as <- <-.
      repeat split; try (intros; contradiction); congruence. }
  destruct (truthy text) eqn:Htruth; cbn.
  2:{ intros Hrun; injection Hrun as <- <-.
      repeat split; try (intros; contradiction); congruence. }
  repeat (handler_case; cbn); intros Hrun; injection Hrun as <- <-;
    (split; [intros Hsp; split; intros; in_events
            | split; [intros Hl; intros; in_events |]]);
    try reflexivity; try congruence;
    intros ? ? _ Htx _ Htmp Hsp Hl Hdisk; try discriminate;
    injection Htx as <-; injection Htmp as <-;
    try (unfold TtsServer.default_speaker_wav in *; congruence); split; cbn; auto 10.
Qed.

Lemma tts_optional_fields_default_witness :
  request_json hello = Ok (JDict [("text", JStr "hello")])
  /\ In (TtsServer.tts_to_file (JStr "hello") (JStr "reference_audio/pcpos_ref.wav")
           (JStr "en") "/tmp/tmp8x2k1q.wav")
        (TtsServer.generate_speech with_reference hello []).2.
Proof.
  split; [reflexivity |].
  refine (proj2 (proj2 (proj2 (tts_optional_fields_default with_reference hello
                   [("text", JStr "hello")]
                   (TtsServer.generate_speech with_reference hello []).1
                   (TtsServer.generate_speech with_reference hello []).2 _ _))
                   (JStr "hello") "/tmp/tmp8x2k1q.wav" _ _ _ _ _ _ _)).
  all: try (vm_compute; reflexivity).
  discriminate.
Defined.

(** ** The generation service *)

(** C10: in every 200 response of [/generate], [prompt_tokens] is the number
    of tokens of the framed prompt - the system prompt (given or default) and
    the user prompt between the markers of the template - and
    [completion_tokens] is the length of the generated sequence minus that
    number. *)
Theorem generate_token_counts :
  forall (w : GraniteServer.world) (req : request) r s' resp,
    GraniteServer.generate w req [] = (r, s') ->
    r = Ok resp -> status resp = 200%Z ->
    exists items user_prompt max_tokens temperature system_prompt toks out,
      request_json req = Ok (JDict items)
      /\ dict_get (JDict items) "prompt" (JStr "") = Ok user_prompt
      /\ dict_get (JDict items) "max_tokens" (JInt 100) = Ok max_tokens
      /\ dict_get (JDict items) "temperature" (JOther "float" "0.7" true) = Ok temperature
      /\ dict_get (JDict items) "system_prompt" (JStr "You are PCPOS, a helpful AI companion.")
         = Ok system_prompt
      /\ GraniteServer.tokenize w
           ("### System:" +:+ nl +:+ py_str system_prompt +:+ nl +:+ nl
            +:+ "### User:" +:+ nl +:+ py_str user_prompt +:+ nl +:+ nl
            +:+ "### Assistant:" +:+ nl) = Ok toks
      /\ GraniteServer.model_generate w toks max_tokens temperature = Ok out
      /\ field "prompt_tokens" resp = Some (JInt (Z.of_nat (length toks)))
      /\ field "completion_tokens" resp
         = Some (JInt (Z.of_nat (length out) - Z.of_nat (length toks))).
Proof.
  intros w req r s' resp Hrun Hr Hst. subst r. revert Hrun. unfold_handler.
  destruct (GraniteServer.model_loaded w), (GraniteServer.tokenizer_loaded w); cbn;
    try (intros Hrun; injection Hrun as <- <-; discriminate Hst).
  destruct (request_json req) as [[items | v] | e]; cbn;
    repeat (granite_case; cbn);
    intros Hrun; try discriminate Hrun; injection Hrun as <- <-;
    try discriminate Hst;
    do 7 eexists; repeat split; try reflexivity; eassumption.
Qed.

Lemma generate_token_counts_witness :
  (GraniteServer.generate granite hi []).1 = Ok hi_response
  /\ status hi_response = 200%Z
  /\ length (char_tokens "Hi") = 2
  /\ exists toks,
       GraniteServer.tokenize granite
         ("### System:" +:+ nl +:+ "You are PCPOS, a helpful AI companion." +:+ nl +:+ nl
          +:+ "### User:" +:+ nl +:+ "Hi" +:+ nl +:+ nl
          +:+ "### Assistant:" +:+ nl) = Ok toks
       /\ length toks = 81
       /\ field "prompt_tokens" hi_response = Some (JInt (Z.of_nat (length toks))).
Proof.
  split; [vm_compute; reflexivity |].
  split; [reflexivity |].
  split; [reflexivity |].
  destruct (generate_token_counts granite hi
              (GraniteServer.generate granite hi []).1
              (GraniteServer.generate granite hi []).2 hi_response)
    as (items & up & mt & te & sp & toks & out & Hj & Hup & _ & _ & Hsp & Htok & _ & Hpt & _).
  - vm_compute; reflexivity.
  - vm_compute; reflexivity.
  - reflexivity.
  - vm_compute in Hj. injection Hj as <-. cbn in Hup, Hsp.
    injection Hup as <-. injection Hsp as <-.
    exists toks. split; [exact Htok |]. split; [| exact Hpt].
    vm_compute in Htok. injection Htok as <-. reflexivity.
Defined.

(** * More properties of the conversion scripts *)

(** ** Reading an order off a checked list *)

Lemma nondecreasing_head (a : nat) (l : list nat) :
  nondecreasing (a :: l) = true -> forall j b, l !! j = Some b -> (a <= b)%nat.
Proof.
  revert a. induction l as [| x l IH]; intros a H j b Hj.
  - destruct j; discriminate Hj.
  - cbn in H. apply andb_true_iff in H as [Hax Hrest].
    apply Nat.leb_le in Hax. destruct j as [| j].
    + cbn in Hj. injection Hj as <-. exact Hax.
    + cbn in Hj. specialize (IH x Hrest j b Hj). lia.
Qed.

Lemma nondecreasing_tail (a : nat) (l : list nat) :
  nondecreasing (a :: l) = true -> nondecreasing l = true.
Proof.
  destruct l; [reflexivity |]. cbn. intros H. apply andb_true_iff in H. tauto.
Qed.

Lemma nondecreasing_lookup (l : list nat) :
  nondecreasing l = true ->
  forall i j a b, (i <= j)%nat -> l !! i = Some a -> l !! j = Some b -> (a <= b)%nat.
Proof.
  induction l as [| x l IH]; intros H i j a b Hij Hi Hj.
  - destruct i; discriminate Hi.
  - destruct i as [| i].
    + cbn in Hi. injection Hi as <-. destruct j as [| j].
      * cbn in Hj. injection Hj as <-. lia.
      * cbn in Hj. eapply nondecreasing_head; eauto.
    + destruct j as [| j]; [lia |]. cbn in Hi, Hj.
      apply (IH (nondecreasing_tail _ _ H) i j a b); [lia | assumption | assumption].
Qed.

Lemma raises_end_the_log_lookup excused (lg : list event) :
  raises_end_the_log excused lg = true ->
  forall i c e, lg !! i = Some (Ev c (Some e)) ->
    S i = length lg \/ excused c e = true.
Proof.
  induction lg as [| ev lg IH]; intros H i c e Hi.
  - destruct i; discriminate Hi.
  - destruct i as [| i].
    + cbn in Hi. injection Hi as ->. destruct lg as [| ev' lg].
      * left. reflexivity.
      * right. cbn in H. apply andb_true_iff in H. tauto.
    + cbn in Hi.
      assert (Hrest : raises_end_the_log excused lg = true).
      { destruct ev as [c0 [e0 |]]; destruct lg; cbn in H |- *; try reflexivity;
          try exact H; apply andb_true_iff in H; tauto. }
      destruct (IH Hrest i c e Hi) as [Hl | He]; [left; cbn; lia | right; exact He].
Qed.

Lemma stages_checked :
  forall (sc : script) (w : world) (fs0 : gmap string file) r s',
    main sc w (init fs0) = (r, s') ->
    nondecreasing (map event_rank (log s')) = true.
Proof.
  intros sc w fs0 r s' Hrun. revert Hrun.
  destruct sc; run_script; intros Hrun; injection Hrun as <- <-; reflexivity.
Qed.

Lemma raises_checked :
  forall (sc : script) (w : world) (fs0 : gmap string file) r s',
    main sc w (init fs0) = (r, s') ->
    raises_end_the_log (recovered sc) (log s') = true.
Proof.
  intros sc w fs0 r s' Hrun. revert Hrun.
  destruct sc; run_script; intros Hrun; injection Hrun as <- <-;
    cbn [log raises_end_the_log]; unfold recovered, recovered_by_fallback;
    cbn [loaded_id model_id];
    repeat match goal with
           | H : exn_is_Exception _ = _ |- _ => rewrite H; clear H
           | H : access_denied _ = _ |- _ => rewrite H; clear H
           end; reveal; reflexivity.
Qed.

(** ** The order of the calls *)

(** X1: in every run of each of the three scripts the external calls follow
    the order resolving, wrapping, tracing, converting, saving: a call made
    later never belongs to an earlier stage (also across the access
    fallback, whose second load attempt is still in the resolving stage). *)
Theorem stages_follow_the_state_machine :
  forall (sc : script) (w : world) (fs0 : gmap string file) r s' i j c1 r1 c2 r2,
    main sc w (init fs0) = (r, s') ->
    (i <= j)%nat ->
    log s' !! i = Some (Ev c1 r1) ->
    log s' !! j = Some (Ev c2 r2) ->
    (stage_rank (stage_of c1) <= stage_rank (stage_of c2))%nat.
Proof.
  intros sc w fs0 r s' i j c1 r1 c2 r2 Hrun Hij Hi Hj.
  apply (nondecreasing_lookup _ (stages_checked sc w fs0 r s' Hrun) i j); [exact Hij | |].
  - rewrite list_lookup_fmap, Hi. reflexivity.
  - rewrite list_lookup_fmap, Hj. reflexivity.
Qed.

Lemma stages_follow_the_state_machine_witness :
  log (run Llama gated).2 !! 0%nat
  = Some (Ev (from_pretrained "AutoTokenizer" primary_id None) (Some gated_error))
  /\ log (run Llama gated).2 !! 4%nat
     = Some (Ev (new_wrapper (LlamaWrapper (Pretrained "AutoModelForCausalLM" fallback_id
                                              (Some torch_float32)))) None)
  /\ (stage_rank resolving <= stage_rank wrapping)%nat.
Proof.
  assert (H0 : log (run Llama gated).2 !! 0%nat
               = Some (Ev (from_pretrained "AutoTokenizer" primary_id None) (Some gated_error)))
    by (vm_compute; reflexivity).
  assert (H4 : log (run Llama gated).2 !! 4%nat
               = Some (Ev (new_wrapper (LlamaWrapper (Pretrained "AutoModelForCausalLM" fallback_id
                                                        (Some torch_float32)))) None))
    by (vm_compute; reflexivity).
  split; [exact H0 |]. split; [exact H4 |].
  refine (stages_follow_the_state_machine Llama gated ∅
            (run Llama gated).1 (run Llama gated).2 0 4 _ _ _ _ _ _ H0 H4).
  - vm_compute; reflexivity.
  - lia.
Defined.

(** X2: no script goes on after a call that raised, with one exception: a
    load call on the primary Llama descriptor that raised an [Exception]
    read as an access denial.  Every other raised call is the last call of
    the run. *)
Theorem only_the_access_fallback_continues_after_a_raise :
  forall (sc : script) (w : world) (fs0 : gmap string file) r s' i c e,
    main sc w (init fs0) = (r, s') ->
    log s' !! i = Some (Ev c (Some e)) ->
    S i = length (log s')
    \/ (sc = Llama /\ loaded_id c = Some primary_id /\ recovered_by_fallback e = true).
Proof.
  intros sc w fs0 r s' i c e Hrun Hi.
  destruct (raises_end_the_log_lookup _ _ (raises_checked sc w fs0 r s' Hrun) i c e Hi)
    as [Hl | Hex]; [left; exact Hl | right].
  unfold recovered in Hex. destruct sc; try discriminate Hex.
  destruct (loaded_id c) as [id |]; try discriminate Hex.
  apply andb_true_iff in Hex as [Hid Hrec]. apply String.eqb_eq in Hid. subst id. auto.
Qed.

Lemma only_the_access_fallback_continues_after_a_raise_witness :
  log (run Tts unconvertible).2 !! 10%nat
  = Some (Ev (ct_convert
                {| ca_model :=
                     Traced (TransformerWrapper
                               (Pretrained "SpeechT5ForTextToSpeech" "microsoft/speecht5_tts" None))
                            [Randint 0 100 [1; 10]%Z; Randn [1; 512]%Z];
                   ca_inputs :=
                     [ {| tt_name := "input_ids"; tt_shape := Some [Fixed 1; RangeDim 1 512];
                          tt_dtype := Some py_int |};
                       {| tt_name := "speaker_embeddings";
                          tt_shape := Some [Fixed 1; Fixed 512]; tt_dtype := None |} ];
                   ca_outputs := [ {| tt_name := "spectrogram"; tt_shape := None;
                                      tt_dtype := None |} ];
                   ca_compute_units := None;
                   ca_minimum_deployment_target := None |})
             (Some convert_error))
  /\ length (log (run Tts unconvertible).2) = 11.
Proof.
  assert (H10 : log (run Tts unconvertible).2 !! 10%nat
               = Some (Ev (ct_convert
                {| ca_model :=
                     Traced (TransformerWrapper
                               (Pretrained "SpeechT5ForTextToSpeech" "microsoft/speecht5_tts" None))
                            [Randint 0 100 [1; 10]%Z; Randn [1; 512]%Z];
                   ca_inputs :=
                     [ {| tt_name := "input_ids"; tt_shape := Some [Fixed 1; RangeDim 1 512];
                          tt_dtype := Some py_int |};
                       {| tt_name := "speaker_embeddings";
                          tt_shape := Some [Fixed 1; Fixed 512]; tt_dtype := None |} ];
                   ca_outputs := [ {| tt_name := "spectrogram"; tt_shape := None;
                                      tt_dtype := None |} ];
                   ca_compute_units := None;
                   ca_minimum_deployment_target := None |})
             (Some convert_error)))
    by (vm_compute; reflexivity).
  split; [exact H10 |].
  assert (Hrun : main Tts unconvertible (init ∅)
                 = ((run Tts unconvertible).1, (run Tts unconvertible).2))
    by (vm_compute; reflexivity).
  destruct (only_the_access_fallback_continues_after_a_raise Tts unconvertible ∅
              (run Tts unconvertible).1 (run Tts unconvertible).2 10 _ _
              Hrun H10) as [Hl | (Hsc & _)].
  - symmetry. exact Hl.
  - discriminate Hsc.
Defined.

(** ** The Llama script beyond the access fallback *)

(** X3: when the load of the primary descriptor goes through (its
    [model.eval()] returned), the Llama script never names the fallback
    descriptor, makes exactly one load attempt, and every later stage works
    on the primary's model and tokenizer. *)
Theorem llama_primary_success_never_touches_fallback :
  forall (w : world) (fs0 : gmap string file) r s',
    convert_llama w (init fs0) = (r, s') ->
    In (Ev (eval_model (Pretrained "AutoModelForCausalLM" primary_id (Some torch_float32))) None)
       (log s') ->
    Forall (fun ev => names_id fallback_id ev = false) (log s')
    /\ load_attempts primary_id (log s') = 1
    /\ (forall c res m, In (Ev c res) (log s') -> model_used c = Some m ->
          model_id m = primary_id)
    /\ (forall lo hi sz res, In (Ev (torch_randint lo hi sz) res) (log s') ->
          hi = vocab_size w (Pretrained "AutoTokenizer" primary_id None)).
Proof.
  intros w fs0 r s' Hrun Hin. revert Hrun.
  run_script; intros Hrun; injection Hrun as <- <-; in_log Hin;
    cbn [log]; reveal;
    (split; [repeat constructor | split; [reflexivity | split]]);
    try (intros ? ? ? Hin' Hm; in_log Hin'; cbn in Hm; try discriminate Hm;
         injection Hm as <-; reflexivity);
    try (intros ? ? ? ? Hin'; in_log Hin'; reflexivity).
Qed.

Lemma llama_primary_success_never_touches_fallback_witness :
  In (Ev (eval_model (Pretrained "AutoModelForCausalLM" primary_id (Some torch_float32))) None)
     (log (run Llama quiet).2)
  /\ load_attempts primary_id (log (run Llama quiet).2) = 1.
Proof.
  assert (Hin : In (Ev (eval_model (Pretrained "AutoModelForCausalLM" primary_id
                                      (Some torch_float32))) None)
                   (log (run Llama quiet).2)) by (vm_compute; tauto).
  assert (Hrun : convert_llama quiet (init ∅) = ((run Llama quiet).1, (run Llama quiet).2))
    by (vm_compute; reflexivity).
  split; [exact Hin |].
  exact (proj1 (proj2 (llama_primary_success_never_touches_fallback quiet ∅ _ _ Hrun Hin))).
Defined.

(** X4: when the access fallback itself fails - a load call on the fallback
    descriptor raises an [Exception] - the Llama script prints
    "Fallback failed too" with the error, returns normally, enters no later
    stage and leaves the file system as it was. *)
Theorem llama_fallback_failure_ends_quietly :
  forall (w : world) (fs0 : gmap string file) r s' c e,
    convert_llama w (init fs0) = (r, s') ->
    In (Ev c (Some e)) (log s') ->
    loaded_id c = Some fallback_id ->
    exn_is_Exception e = true ->
    r = Ok tt
    /\ In ("❌ Fallback failed too: " +:+ exn_str e) (stdout s')
    /\ Forall (fun ev => is_downstream ev = false) (log s')
    /\ fs s' = fs0.
Proof.
  intros w fs0 r s' c e Hrun Hin Hid Hexc. revert Hrun.
  run_script; intros Hrun; injection Hrun as <- <-; in_log Hin;
    cbn [log stdout fs]; reveal; try discriminate Hid; try congruence;
    (split; [reflexivity | split; [cbn; tauto | split; [repeat constructor | reflexivity]]]).
Qed.

Lemma llama_fallback_failure_ends_quietly_witness :
  In (Ev (from_pretrained "AutoTokenizer" fallback_id None) (Some gated_error))
     (log (run Llama all_denied).2)
  /\ exn_is_Exception gated_error = true
  /\ (run Llama all_denied).1 = Ok tt.
Proof.
  assert (Hin : In (Ev (from_pretrained "AutoTokenizer" fallback_id None) (Some gated_error))
                   (log (run Llama all_denied).2)) by (vm_compute; tauto).
  assert (Hrun : convert_llama all_denied (init ∅)
                 = ((run Llama all_denied).1, (run Llama all_denied).2))
    by (vm_compute; reflexivity).
  split; [exact Hin |]. split; [reflexivity |].
  exact (proj1 (llama_fallback_failure_ends_quietly all_denied ∅ _ _ _ _ Hrun Hin
                  eq_refl eq_refl)).
Defined.

(** ** What the scripts print *)



(** X6: in the TTS script an [Exception] of [ct.convert] or of the save is
    caught by the same handler as a trace failure: the script returns
    normally, prints the "Tracing failed" diagnostic with the error text and
    the "simulated success" line, and does not print the "Saved" line. *)
Theorem tts_reports_convert_and_save_errors_as_trace_failures :
  forall (w : world) (fs0 : gmap string file) r s' c e,
    convert_tts w (init fs0) = (r, s') ->
    outcome_of (log s') = failed c e ->
    stage_of c = converting \/ stage_of c = saving ->
    exn_is_Exception e = true ->
    r = Ok tt
    /\ In ("⚠️ Tracing failed (common for complex TTS): " +:+ exn_str e) (stdout s')
    /\ In "Falling back to simulated success for now so you can proceed with integration."
          (stdout s')
    /\ ~ In "✅ Saved SpeechT5_Acoustic.mlpackage" (stdout s').
Proof.
  intros w fs0 r s' c e Hrun Ho Hst Hexc. revert Hrun.
  run_script; intros Hrun; injection Hrun as <- <-; cbn in Ho;
    try discriminate Ho; injection Ho as <- <-;
    try (destruct Hst as [Hst | Hst]; discriminate Hst);
    try congruence;
    cbn [stdout]; reveal;
    (split; [reflexivity | split; [cbn; tauto | split; [cbn; tauto |]]]);
    cbn; intros Hin;
    repeat (destruct Hin as [Hin | Hin]; [try discriminate Hin |]); try destruct Hin.
Qed.

Lemma tts_reports_convert_and_save_errors_as_trace_failures_witness :
  wrote_package (log (run Tts unconvertible).2) = false
  /\ In ("⚠️ Tracing failed (common for complex TTS): " +:+ exn_str convert_error)
        (stdout (run Tts unconvertible).2).
Proof.
  assert (Hrun : convert_tts unconvertible (init ∅)
                 = ((run Tts unconvertible).1, (run Tts unconvertible).2))
    by (vm_compute; reflexivity).
  split; [vm_compute; reflexivity |].
  refine (proj1 (proj2 (tts_reports_convert_and_save_errors_as_trace_failures
                          unconvertible ∅ _ _ _ convert_error Hrun _ _ _))).
  - vm_compute; reflexivity.
  - left. reflexivity.
  - reflexivity.
Defined.

(** ** The shape contracts the scripts declare *)

(** X7: in each script the dummy inputs the graph was traced on conform to
    the input shapes declared to the converter - one example per declared
    input, each within its declared sizes and ranges - and every declared
    axis is a positive size or a range with [1 <= min <= max]. *)
Theorem dummy_inputs_conform_to_declared_shapes :
  forall (sc : script) (w : world) (fs0 : gmap string file) r s' a res,
    main sc w (init fs0) = (r, s') ->
    In (Ev (ct_convert a) res) (log s') ->
    examples_conform (ca_inputs a) (traced_example (ca_model a)) = true
    /\ Forall (fun t => declared_ok t = true) (ca_inputs a).
Proof.
  intros sc w fs0 r s' a res Hrun Hin. revert Hrun.
  destruct sc; run_script; intros Hrun; injection Hrun as <- <-; in_log Hin;
    (split; [reflexivity | repeat constructor]).
Qed.

Lemma dummy_inputs_conform_to_declared_shapes_witness :
  wrote_package (log (run Voice quiet).2) = true
  /\ examples_conform
       [ {| tt_name := "audio"; tt_shape := Some [Fixed 1; Fixed 16000]; tt_dtype := None |} ]
       [Randn [1; 16000]%Z] = true.
Proof.
  assert (Hrun : main Voice quiet (init ∅) = ((run Voice quiet).1, (run Voice quiet).2))
    by (vm_compute; reflexivity).
  split; [vm_compute; reflexivity |].
  refine (proj1 (dummy_inputs_conform_to_declared_shapes Voice quiet ∅ _ _
            {| ca_model := Traced (ModelWrapper (BundleModel "WAV2VEC2_ASR_BASE_960H"))
                                  [Randn [1; 16000]%Z];
               ca_inputs := [ {| tt_name := "audio"; tt_shape := Some [Fixed 1; Fixed 16000];
                                 tt_dtype := None |} ];
               ca_outputs := [ {| tt_name := "embedding"; tt_shape := None; tt_dtype := None |} ];
               ca_compute_units := None;
               ca_minimum_deployment_target := None |} None Hrun _)).
  vm_compute. tauto.
Defined.

(** ** How an access denial is recognised *)

Lemma contains_unfold (sub s : string) :
  contains sub s
  = String.prefix sub s
    || match s with EmptyString => false | String _ s' => contains sub s' end.
Proof. destruct s; reflexivity. Qed.

Lemma prefix_append (sub b : string) : String.prefix sub (sub +:+ b) = true.
Proof.
  induction sub as [| x sub IH]; simpl.
  - destruct b; reflexivity.
  - destruct (Ascii.ascii_dec x x); [exact IH | congruence].
Qed.

Lemma contains_intro (sub a b : string) : contains sub (a +:+ sub +:+ b) = true.
Proof.
  induction a as [| c a IH].
  - change ("" +:+ sub +:+ b) with (sub +:+ b).
    rewrite contains_unfold, prefix_append. reflexivity.
  - change (String c a +:+ sub +:+ b) with (String c (a +:+ sub +:+ b)).
    rewrite contains_unfold, IH. apply orb_true_r.
Qed.



Lemma lower_app (a b : string) : lower (a +:+ b) = lower a +:+ lower b.
Proof. induction a as [| c a IH]; simpl; [reflexivity | rewrite IH; reflexivity]. Qed.


(** X9: the word "gated" is found in any letter case and anywhere in the
    text: an error whose text has a word that lower-cases to "gated" is read
    as an access denial, whatever stands before and after it. *)
Theorem access_denied_ignores_letter_case_of_gated :
  forall (cls : bool) (a g b : string),
    lower g = "gated" ->
    access_denied (Exn cls (a +:+ g +:+ b)) = true.
Proof.
  intros cls a g b Hg. unfold access_denied. cbn [exn_str].
  rewrite !lower_app, Hg, contains_intro. apply orb_true_r.
Qed.

Lemma access_denied_ignores_letter_case_of_gated_witness :
  lower "GATED" = "gated"
  /\ access_denied (Exn true ("Repo is " +:+ "GATED" +:+ ". Request access.")) = true.
Proof.
  split; [reflexivity |].
  apply (access_denied_ignores_letter_case_of_gated true "Repo is " "GATED"). reflexivity.
Defined.

(** * More properties of the speech service *)

(** X10: with the model loaded and a JSON object as body, a ['text'] that is
    absent or falsy (null, the empty string, 0, false, an empty list) is
    answered with 400 "Missing 'text' parameter" before anything else
    happens: no temporary file, no check of the reference, no inference. *)
Theorem tts_falsy_text_is_rejected_first :
  forall (w : TtsServer.world) (req : request) items,
    TtsServer.tts w <> None ->
    request_json req = Ok (JDict items) ->
    truthy (match dict_lookup "text" items with Some v => v | None => JNull end) = false ->
    TtsServer.generate_speech w req []
    = (Ok (Response (Json [("error", JStr "Missing 'text' parameter")]) 400), []).
Proof.
  intros w req items Hl Hjson Htext. unfold_handler. rewrite Hjson.
  destruct (TtsServer.tts w); [| congruence]. cbn.
  destruct (dict_lookup "text" items); cbn in Htext |- *; rewrite ?Htext; reflexivity.
Qed.

Lemma tts_falsy_text_is_rejected_first_witness :
  TtsServer.tts with_reference <> None
  /\ truthy (JStr "") = false
  /\ TtsServer.generate_speech with_reference
       (Request (Ok (JDict [("text", JStr ""); ("language", JStr "fr")]))) []
     = (Ok (Response (Json [("error", JStr "Missing 'text' parameter")]) 400), []).
Proof.
  split; [discriminate |]. split; [reflexivity |].
  apply (tts_falsy_text_is_rejected_first with_reference _
           [("text", JStr ""); ("language", JStr "fr")]);
    [discriminate | reflexivity | reflexivity].
Defined.

(** X11: a 200 answer of [/tts] is always the temporary file, sent as
    "audio/wav", after exactly these four calls in this order: the temporary
    file is made, the speaker reference is found on disk, the model writes
    the text with that reference and language into that file, the file is
    sent. *)
Theorem tts_success_sends_the_generated_file :
  forall (w : TtsServer.world) (req : request) r s' resp,
    TtsServer.generate_speech w req [] = (r, s') ->
    r = Ok resp -> status resp = 200%Z ->
    exists items text speaker language f,
      request_json req = Ok (JDict items)
      /\ dict_lookup "text" items = Some text /\ truthy text = true
      /\ dict_get (JDict items) "speaker_wav" (JStr "reference_audio/pcpos_ref.wav") = Ok speaker
      /\ dict_get (JDict items) "language" (JStr "en") = Ok language
      /\ TtsServer.temp_name w = Ok f
      /\ resp = Response (SentFile f "audio/wav") 200
      /\ s' = [TtsServer.NamedTemporaryFile ".wav";
               TtsServer.os_path_exists speaker;
               TtsServer.tts_to_file text speaker language f;
               TtsServer.send_file f "audio/wav"].
Proof.
  intros w req r s' resp Hrun Hr Hst. subst r. revert Hrun. unfold_handler.
  destruct (TtsServer.tts w) as [dev |]; cbn;
    [| intros Hrun; injection Hrun as <- <-; discriminate Hst].
  destruct (request_json req) as [[items | v] | e]; cbn; try discriminate.
  destruct (dict_lookup "text" items) as [text |] eqn:Htext; cbn;
    [| intros Hrun; injection Hrun as <- <-; discriminate Hst].
  destruct (truthy text) eqn:Htruth; cbn;
    [| intros Hrun; injection Hrun as <- <-; discriminate Hst].
  repeat (handler_case; cbn); intros Hrun; try discriminate Hrun;
    injection Hrun as <- <-; try discriminate Hst;
    do 5 eexists; cbn [dict_get];
    repeat match goal with
           | H : dict_lookup _ items = _ |- _ => rewrite ?H; clear H
           end;
    repeat split; try reflexivity; try eassumption.
Qed.

Lemma tts_success_sends_the_generated_file_witness :
  (TtsServer.generate_speech with_reference hello []).1
  = Ok (Response (SentFile "/tmp/tmp8x2k1q.wav" "audio/wav") 200)
  /\ length (TtsServer.generate_speech with_reference hello []).2 = 4.
Proof.
  assert (H1 : (TtsServer.generate_speech with_reference hello []).1
               = Ok (Response (SentFile "/tmp/tmp8x2k1q.wav" "audio/wav") 200))
    by (vm_compute; reflexivity).
  split; [exact H1 |].
  destruct (tts_success_sends_the_generated_file with_reference hello
              (TtsServer.generate_speech with_reference hello []).1
              (TtsServer.generate_speech with_reference hello []).2
              (Response (SentFile "/tmp/tmp8x2k1q.wav" "audio/wav") 200))
    as (items & text & sp & l & f & _ & _ & _ & _ & _ & _ & _ & Hlog).
  - vm_compute; reflexivity.
  - exact H1.
  - reflexivity.
  - rewrite Hlog. reflexivity.
Defined.

(** X12: when the model raises an [Exception] while writing the speech, the
    handler answers 500 with the error text as ['error'], logs the error and
    never sends a file. *)
Theorem tts_inference_error_is_answered_with_500 :
  forall (w : TtsServer.world) (req : request) r s' t sp l f e,
    TtsServer.generate_speech w req [] = (r, s') ->
    In (TtsServer.tts_to_file t sp l f) s' ->
    TtsServer.tts_raises w t sp l f = Some e ->
    exn_is_Exception e = true ->
    r = Ok (Response (Json [("error", JStr (exn_str e))]) 500)
    /\ In (TtsServer.logger_error ("TTS Generation Error: " +:+ exn_str e)) s'
    /\ (forall p m, ~ In (TtsServer.send_file p m) s').
Proof.
  intros w req r s' t sp l f e Hrun Hin Hraise Hexc. revert Hrun. unfold_handler.
  destruct (TtsServer.tts w) as [dev |]; cbn;
    [| intros Hrun; injection Hrun as <- <-; destruct Hin].
  destruct (request_json req) as [[items | v] | e0]; cbn;
    try (intros Hrun; injection Hrun as <- <-; destruct Hin).
  destruct (dict_lookup "text" items) as [text |] eqn:Htext; cbn;
    [| intros Hrun; injection Hrun as <- <-; destruct Hin].
  destruct (truthy text) eqn:Htruth; cbn;
    [| intros Hrun; injection Hrun as <- <-; destruct Hin].
  repeat (handler_case; cbn); intros Hrun; injection Hrun as <- <-; in_events;
    try congruence;
    repeat match goal with
           | H1 : ?x = Some _, H2 : ?x = Some _ |- _ => rewrite H1 in H2; injection H2 as <-
           end;
    try congruence;
    (split; [reflexivity | split; [cbn; tauto |]]);
    intros p m Hs; in_events.
Qed.

Lemma tts_inference_error_is_answered_with_500_witness :
  In (TtsServer.tts_to_file (JStr "hello") (JStr "reference_audio/pcpos_ref.wav") (JStr "en")
        "/tmp/tmp8x2k1q.wav")
     (TtsServer.generate_speech failing_model hello []).2
  /\ (TtsServer.generate_speech failing_model hello []).1
     = Ok (Response (Json [("error", JStr "MPS backend out of memory")]) 500).
Proof.
  assert (Hin : In (TtsServer.tts_to_file (JStr "hello") (JStr "reference_audio/pcpos_ref.wav")
                      (JStr "en") "/tmp/tmp8x2k1q.wav")
                   (TtsServer.generate_speech failing_model hello []).2)
    by (vm_compute; tauto).
  split; [exact Hin |].
  refine (proj1 (tts_inference_error_is_answered_with_500 failing_model hello
                   (TtsServer.generate_speech failing_model hello []).1
                   (TtsServer.generate_speech failing_model hello []).2
                   _ _ _ _ synth_error _ Hin _ _)).
  - vm_compute; reflexivity.
  - reflexivity.
  - reflexivity.
Defined.

(** X13: a body that is JSON but no object (an array, a string, null) is not
    answered by the speech handler: with the model loaded, [data.get] raises
    an [AttributeError] before the [try], nothing is called and the exception
    leaves the handler.  The generation handler parses the body inside its
    [try] and answers the same body with 500 and that error text. *)
Theorem non_object_body_raises_in_tts_and_is_answered_by_generate :
  forall (tw : TtsServer.world) (gw : GraniteServer.world) (req : request) v,
    request_json req = Ok (JNotDict v) ->
    TtsServer.tts tw <> None ->
    GraniteServer.model_loaded gw = true ->
    GraniteServer.tokenizer_loaded gw = true ->
    TtsServer.generate_speech tw req []
    = (Raise (Exn true ("'" +:+ type_name v +:+ "' object has no attribute 'get'")), [])
    /\ (GraniteServer.generate gw req []).1
       = Ok (Response
               (Json [("error",
                        JStr ("'" +:+ type_name v +:+ "' object has no attribute 'get'"))])
               500).
Proof.
  intros tw gw req v Hjson Ht Hm Htok. unfold_handler.
  rewrite Hjson, Hm, Htok. destruct (TtsServer.tts tw); [| congruence].
  split; reflexivity.
Qed.

Lemma non_object_body_raises_in_tts_and_is_answered_by_generate_witness :
  request_json array_body = Ok (JNotDict (JOther "list" "['hello']" true))
  /\ TtsServer.generate_speech with_reference array_body []
     = (Raise (Exn true "'list' object has no attribute 'get'"), []).
Proof.
  split; [reflexivity |].
  refine (proj1 (non_object_body_raises_in_tts_and_is_answered_by_generate
                   with_reference granite array_body (JOther "list" "['hello']" true)
                   _ _ _ _));
    [reflexivity | discriminate | reflexivity | reflexivity].
Defined.

(** X14: every answer of [/tts] has status 200, 400, 500 or 503; it carries
    an ['error'] string exactly when the status is not 200; and one request
    invokes the model at most once. *)
Theorem tts_answers_and_inference_count :
  forall (w : TtsServer.world) (req : request) r s',
    TtsServer.generate_speech w req [] = (r, s') ->
    length (filter (fun ev => TtsServer.is_inference ev = true) s') <= 1
    /\ forall resp, r = Ok resp ->
         In (status resp) [200; 400; 500; 503]%Z
         /\ (is_error resp = true <-> status resp <> 200%Z).
Proof.
  intros w req r s' Hrun. revert Hrun. unfold_handler.
  destruct (TtsServer.tts w) as [dev |]; cbn.
  2:{ intros Hrun; injection Hrun as <- <-. split; [vm_compute; lia |].
      intros resp Hr; injection Hr as <-. cbn. intuition (try discriminate; auto). }
  destruct (request_json req) as [[items | v] | e]; cbn;
    try (intros Hrun; injection Hrun as <- <-; split; [vm_compute; lia | intros resp Hr; discriminate Hr]).
  destruct (dict_lookup "text" items) as [text |] eqn:Htext; cbn.
  2:{ intros Hrun; injection Hrun as <- <-. split; [vm_compute; lia |].
      intros resp Hr; injection Hr as <-. cbn. intuition (try discriminate; auto). }
  destruct (truthy text) eqn:Htruth; cbn.
  2:{ intros Hrun; injection Hrun as <- <-. split; [vm_compute; lia |].
      intros resp Hr; injection Hr as <-. cbn. intuition (try discriminate; auto). }
  repeat (handler_case; cbn); intros Hrun; injection Hrun as <- <-;
    (split; [vm_compute; lia |]); intros resp Hr; try discriminate Hr; injection Hr as <-;
    cbn; intuition (try discriminate; auto).
Qed.

Lemma tts_answers_and_inference_count_witness :
  length (filter (fun ev => TtsServer.is_inference ev = true)
            (TtsServer.generate_speech with_reference hello []).2) <= 1.
Proof.
  refine (proj1 (tts_answers_and_inference_count with_reference hello
                   (TtsServer.generate_speech with_reference hello []).1
                   (TtsServer.generate_speech with_reference hello []).2 _)).
  vm_compute; reflexivity.
Defined.

(** X15: once the body of a [/tts] request is a JSON object, no [Exception]
    leaves the handler, whatever the temporary file, the file system, the
    model and [send_file] do. *)
Theorem tts_handler_contains_exceptions :
  forall (w : TtsServer.world) (req : request) items r s' e,
    request_json req = Ok (JDict items) ->
    TtsServer.generate_speech w req [] = (r, s') ->
    r = Raise e ->
    exn_is_Exception e = false.
Proof.
  intros w req items r s' e Hjson Hrun Hr. subst r. revert Hrun. unfold_handler.
  rewrite Hjson.
  destruct (TtsServer.tts w) as [dev |]; cbn; try discriminate.
  destruct (dict_lookup "text" items) as [text |] eqn:Htext; cbn; try discriminate.
  destruct (truthy text) eqn:Htruth; cbn; try discriminate.
  repeat (handler_case; cbn); intros Hrun; try discriminate Hrun;
    injection Hrun as <- <-; assumption.
Qed.

Lemma tts_handler_contains_exceptions_witness :
  request_json hello = Ok (JDict [("text", JStr "hello")])
  /\ (forall e, (TtsServer.generate_speech failing_model hello []).1 = Raise e ->
        exn_is_Exception e = false).
Proof.
  split; [reflexivity |].
  intros e He.
  refine (tts_handler_contains_exceptions failing_model hello [("text", JStr "hello")]
            (TtsServer.generate_speech failing_model hello []).1
            (TtsServer.generate_speech failing_model hello []).2 e _ _ He).
  - reflexivity.
  - vm_compute; reflexivity.
Defined.

(** * More properties of the generation service *)

(** X16: no [Exception] ever leaves the [/generate] handler; every answer
    has status 200, 500 or 503 and carries an ['error'] string exactly when
    the status is not 200. *)
Theorem generate_contains_exceptions :
  forall (w : GraniteServer.world) (req : request) r s',
    GraniteServer.generate w req [] = (r, s') ->
    (forall e, r = Raise e -> exn_is_Exception e = false)
    /\ (forall resp, r = Ok resp ->
          In (status resp) [200; 500; 503]%Z
          /\ (is_error resp = true <-> status resp <> 200%Z)).
Proof.
  intros w req r s' Hrun. revert Hrun. unfold_handler.
  destruct (GraniteServer.model_loaded w), (GraniteServer.tokenizer_loaded w); cbn;
    try (intros Hrun; injection Hrun as <- <-;
         split; [intros ? He; discriminate He |];
         intros resp Hr; injection Hr as <-; cbn; intuition (try discriminate; auto)).
  destruct (request_json req) as [[items | v] | e0]; cbn;
    repeat (granite_case; cbn);
    intros Hrun; injection Hrun as <- <-;
    (split; [intros ? He; try discriminate He; injection He as <-; assumption |]);
    intros resp Hr; try discriminate Hr; injection Hr as <-; cbn;
    intuition (try discriminate; auto).
Qed.

Lemma generate_contains_exceptions_witness :
  In (status hi_response) [200; 500; 503]%Z.
Proof.
  refine (proj1 (proj2 (generate_contains_exceptions granite hi
                          (GraniteServer.generate granite hi []).1
                          (GraniteServer.generate granite hi []).2 _) hi_response _)).
  - vm_compute; reflexivity.
  - vm_compute; reflexivity.
Defined.

(** X17: a 500 answer of [/generate] always reports an [Exception] raised
    while the request was parsed, tokenized, generated or decoded: its
    ['error'] is the text of that exception, and the handler printed
    "Generation error" with the same text and nothing else. *)
Theorem generate_500_reports_the_exception :
  forall (w : GraniteServer.world) (req : request) r s' resp,
    GraniteServer.generate w req [] = (r, s') ->
    r = Ok resp -> status resp = 500%Z ->
    exists e,
      exn_is_Exception e = true
      /\ resp = Response (Json [("error", JStr (exn_str e))]) 500
      /\ s' = ["❌ Generation error: " +:+ exn_str e]
      /\ (request_json req = Raise e
          \/ (exists v, request_json req = Ok (JNotDict v))
          \/ (exists p, GraniteServer.tokenize w p = Raise e)
          \/ GraniteServer.to_cuda_raises w = Some e
          \/ (exists toks mt te, GraniteServer.model_generate w toks mt te = Raise e)
          \/ (exists out, GraniteServer.decode w out = Raise e)).
Proof.
  intros w req r s' resp Hrun Hr Hst. subst r. revert Hrun. unfold_handler.
  destruct (GraniteServer.model_loaded w), (GraniteServer.tokenizer_loaded w); cbn;
    try (intros Hrun; injection Hrun as <- <-; discriminate Hst).
  destruct (request_json req) as [[items | v] | e0] eqn:Hjson; cbn.
  - repeat (granite_case; cbn);
      intros Hrun; try discriminate Hrun; injection Hrun as <- <-;
      try discriminate Hst;
      eexists; (split; [eassumption |]);
      (split; [reflexivity |]); (split; [reflexivity |]); eauto 10.
  - intros Hrun; injection Hrun as <- <-.
    exists (Exn true ("'" +:+ type_name v +:+ "' object has no attribute 'get'")).
    repeat split; eauto.
  - repeat (granite_case; cbn);
      intros Hrun; try discriminate Hrun; injection Hrun as <- <-;
      eexists; (split; [eassumption |]);
      (split; [reflexivity |]); (split; [reflexivity |]); eauto 10.
Qed.

Lemma generate_500_reports_the_exception_witness :
  (GraniteServer.generate granite array_body []).1
  = Ok (Response (Json [("error", JStr "'list' object has no attribute 'get'")]) 500)
  /\ (GraniteServer.generate granite array_body []).2
     = ["❌ Generation error: 'list' object has no attribute 'get'"].
Proof.
  assert (H1 : (GraniteServer.generate granite array_body []).1
               = Ok (Response (Json [("error", JStr "'list' object has no attribute 'get'")]) 500))
    by (vm_compute; reflexivity).
  split; [exact H1 |].
  destruct (generate_500_reports_the_exception granite array_body
              (GraniteServer.generate granite array_body []).1
              (GraniteServer.generate granite array_body []).2 _
              ltac:(vm_compute; reflexivity) H1 eq_refl)
    as (e & _ & Hresp & Hout & _).
  injection Hresp as He. rewrite Hout, <- He. reflexivity.
Defined.


Lemma drop_prefix_length (p c : string) :
  drop_prefix (String.length p) (p +:+ c) = c.
Proof. induction p as [| x p IH]; simpl; [destruct c; reflexivity | exact IH]. Qed.

Lemma drop_prefix_same_length (p q c : string) :
  String.length q = String.length p ->
  drop_prefix (String.length q) (p +:+ c) = c.
Proof. intros ->. apply drop_prefix_length. Qed.

Opaque GraniteServer.full_prompt_of.


Transparent GraniteServer.full_prompt_of.


(** * Start-up of the speech service *)

Ltac unfold_boot :=
  unfold TtsBoot.main, TtsBoot.load_model, TtsBoot.exit, TtsBoot.call, TtsBoot.emit,
    TtsBoot.set_tts, TtsBoot.init, try_except, bind, ret, raise.

Ltac boot_case :=
  match goal with
  | |- context [TtsBoot.tts_init_raises ?e] =>
      destruct (TtsBoot.tts_init_raises e) eqn:?
  | |- context [TtsBoot.to_device_raises ?e ?d] =>
      destruct (TtsBoot.to_device_raises e d) eqn:?
  | |- context [if exn_is_Exception ?e then _ else _] =>
      destruct (exn_is_Exception e) eqn:?
  end.



(** X20: when loading the speech model raises an [Exception], [load_model]
    logs "Failed to load TTS model" with the error, calls [sys.exit(1)] as
    its last act and so raises [SystemExit], which is no [Exception]; the
    global model stays unset and [/status] would answer "loading"/"none".
    [load_model] never lets an [Exception] escape. *)
Theorem tts_load_model_failure_exits :
  forall (e : TtsBoot.env) r s' ex,
    TtsBoot.load_model e TtsBoot.init = (r, s') ->
    r = Raise ex ->
    exn_is_Exception ex = false
    /\ TtsBoot.tts s' = None
    /\ TtsBoot.status s'
       = Response (Json [("status", JStr "loading"); ("device", JStr "none")]) 200
    /\ forall ex0,
         (TtsBoot.tts_init_raises e = Some ex0
          \/ (TtsBoot.tts_init_raises e = None
              /\ TtsBoot.to_device_raises e
                   (if TtsBoot.mps_is_available e then "mps"
                    else if TtsBoot.cuda_is_available e then "cuda" else "cpu") = Some ex0)) ->
         exn_is_Exception ex0 = true ->
         ex = Exn false "1"
         /\ In (TtsBoot.logger_error ("Failed to load TTS model: " +:+ exn_str ex0))
               (TtsBoot.log s')
         /\ last (TtsBoot.log s') = Some (TtsBoot.sys_exit 1).
Proof.
  intros e r s' ex Hrun Hr. subst r. revert Hrun. unfold_boot.
  destruct (TtsBoot.mps_is_available e), (TtsBoot.cuda_is_available e); cbn;
    repeat (boot_case; cbn); intros Hrun; try discriminate Hrun;
    injection Hrun as <- <-; cbn;
    (split; [first [reflexivity | assumption] |]);
    (split; [reflexivity |]); (split; [reflexivity |]);
    intros ex0 [H0 | [H0 H1]] Hexc; try discriminate H0; try discriminate H1;
    try (injection H0 as <-); try (injection H1 as <-); try congruence;
    (split; [reflexivity | split; [cbn; tauto | reflexivity]]).
Qed.

Lemma tts_load_model_failure_exits_witness :
  (TtsBoot.load_model no_xtts TtsBoot.init).1 = Raise (Exn false "1")
  /\ TtsBoot.tts (TtsBoot.load_model no_xtts TtsBoot.init).2 = None.
Proof.
  assert (H1 : (TtsBoot.load_model no_xtts TtsBoot.init).1 = Raise (Exn false "1"))
    by (vm_compute; reflexivity).
  split; [exact H1 |].
  exact (proj1 (proj2 (tts_load_model_failure_exits no_xtts _ _ _
                         ltac:(vm_compute; reflexivity) H1))).
Defined.



(** * Start-up of the generation service *)

Ltac unfold_granite_boot :=
  unfold GraniteBoot.main, GraniteBoot.load_model, GraniteBoot.call,
    GraniteBoot.emit, GraniteBoot.print, GraniteBoot.set_model, GraniteBoot.set_tokenizer,
    GraniteBoot.init, try_except, bind, ret, raise.

Ltac granite_boot_case :=
  match goal with
  | |- context [GraniteBoot.tokenizer_raises ?e ?p] =>
      destruct (GraniteBoot.tokenizer_raises e p) eqn:?
  | |- context [GraniteBoot.model_raises ?e ?p ?d ?m] =>
      destruct (GraniteBoot.model_raises e p d m) eqn:?
  | |- context [if exn_is_Exception ?e then _ else _] =>
      destruct (exn_is_Exception e) eqn:?
  end.

(** The two runs of a proof about the start-up: with and without CUDA, the
    literals named and the model path kept folded. *)
Ltac run_granite_boot e :=
  unfold GraniteBoot.main, GraniteBoot.load_model; hide_strings;
  unfold_granite_boot;
  unfold GraniteBoot.exit, GraniteBoot.emit, bind, raise;
  generalize (GraniteBoot.model_path e); intros path;
  destruct (GraniteBoot.cuda_is_available e); cbn;
  repeat (granite_boot_case; cbn).

(** X22: [load_model] of the generation service, started with both globals
    unset, never lets an [Exception] escape; it returns [True] exactly when
    it has set the global model, and then the tokenizer is set too.  When the
    tokenizer cannot be loaded the model is not even tried and both globals
    stay unset; when only the model cannot be loaded the tokenizer stays set
    and the model unset.  A failure prints "Error loading model" with the
    error text. *)
Theorem granite_load_model_result :
  forall (e : GraniteBoot.env) r s',
    GraniteBoot.load_model e GraniteBoot.init = (r, s') ->
    (forall ex, r = Raise ex -> exn_is_Exception ex = false)
    /\ (forall b, r = Ok b ->
          (b = true <-> GraniteBoot.model s' <> None)
          /\ (GraniteBoot.model s' <> None -> GraniteBoot.tokenizer s' <> None)
          /\ (GraniteBoot.tokenizer s' = None ->
                existsb GraniteBoot.is_model_load (GraniteBoot.log s') = false)
          /\ (b = false ->
                exists ex, exn_is_Exception ex = true
                  /\ In ("❌ Error loading model: " +:+ exn_str ex) (GraniteBoot.stdout s'))).
Proof.
  intros e r s'. run_granite_boot e;
    intros Hrun; injection Hrun as <- <-; cbn;
    (split; [intros ? He; try discriminate He; injection He as <-; assumption |]);
    intros b Hb; try discriminate Hb; injection Hb as <-;
    (split; [split; [intros Ht; try discriminate Ht; discriminate
                    | intros Hm; first [reflexivity | exfalso; apply Hm; reflexivity]] |]);
    (split; [intros Hm; first [discriminate | exfalso; apply Hm; reflexivity] |]);
    (split; [intros Ht; first [reflexivity | discriminate Ht] |]);
    intros Hf; try discriminate Hf;
    eexists; (split; [eassumption |]); reveal; cbn; tauto.
Qed.

Lemma granite_load_model_result_witness :
  (GraniteBoot.load_model no_weights GraniteBoot.init).1 = Ok false
  /\ GraniteBoot.model (GraniteBoot.load_model no_weights GraniteBoot.init).2 = None
  /\ GraniteBoot.tokenizer (GraniteBoot.load_model no_weights GraniteBoot.init).2
     = Some "/opt/pcpos/PythonScripts/../Resources/models/llm"
  /\ exists ex, exn_is_Exception ex = true
       /\ In ("❌ Error loading model: " +:+ exn_str ex)
             (GraniteBoot.stdout (GraniteBoot.load_model no_weights GraniteBoot.init).2).
Proof.
  assert (H1 : (GraniteBoot.load_model no_weights GraniteBoot.init).1 = Ok false)
    by (vm_compute; reflexivity).
  split; [exact H1 |]. split; [reflexivity |]. split; [reflexivity |].
  refine (proj2 (proj2 (proj2 (proj2 (granite_load_model_result no_weights _ _ _) false H1)))
            eq_refl).
  vm_compute; reflexivity.
Defined.

Lemma append_nonempty (a : string) (c : ascii) (b : string) : a +:+ String c b <> "".
Proof. destruct a; discriminate. Qed.

Lemma ends_with_slash_append (a : string) (c : ascii) (b : string) :
  GraniteBoot.ends_with_slash (a +:+ String c b) = GraniteBoot.ends_with_slash (String c b).
Proof.
  induction a as [| x a IH]; [reflexivity |].
  change (String x a +:+ String c b) with (String x (a +:+ String c b)).
  pose proof (append_nonempty a c b) as Hn.
  destruct (a +:+ String c b) as [| y t] eqn:E; [congruence | exact IH].
Qed.

Lemma path_join_plain (a : string) (c : ascii) (b : string) :
  a <> "" -> GraniteBoot.ends_with_slash a = false ->
  String.prefix "/" (String c b) = false ->
  GraniteBoot.path_join a (String c b) = a +:+ String "/" (String c b).
Proof.
  intros Ha Hs Hp. unfold GraniteBoot.path_join. rewrite Hp, Hs.
  destruct a; [congruence | reflexivity].
Qed.

Lemma append_assoc (a b c : string) : (a +:+ b) +:+ c = a +:+ (b +:+ c).
Proof.
  induction a as [| x a IH]; [reflexivity |].
  change ((String x a +:+ b) +:+ c) with (String x ((a +:+ b) +:+ c)).
  change (String x a +:+ (b +:+ c)) with (String x (a +:+ (b +:+ c))).
  f_equal. exact IH.
Qed.

(** X23: the model directory is found relative to the script: for a script
    directory that is not empty and does not end in a slash it is that
    directory followed by "/../Resources/models/llm".  The tokenizer and the
    model are both loaded from it, the tokenizer first; the model is loaded
    in float16 with [device_map="auto"] exactly when CUDA is available, in
    float32 with no device map otherwise, and always with
    [low_cpu_mem_usage]. *)
Theorem granite_model_is_loaded_from_the_resources_folder :
  forall (e : GraniteBoot.env) r s' p d m l,
    GraniteBoot.script_dir e <> "" ->
    GraniteBoot.ends_with_slash (GraniteBoot.script_dir e) = false ->
    GraniteBoot.load_model e GraniteBoot.init = (r, s') ->
    In (GraniteBoot.model_from_pretrained p d m l) (GraniteBoot.log s') ->
    p = GraniteBoot.script_dir e +:+ "/../Resources/models/llm"
    /\ d = (if GraniteBoot.cuda_is_available e then GraniteBoot.float16 else GraniteBoot.float32)
    /\ m = (if GraniteBoot.cuda_is_available e then Some "auto" else None)
    /\ l = true
    /\ GraniteBoot.log s'
       = [GraniteBoot.tokenizer_from_pretrained p; GraniteBoot.model_from_pretrained p d m l].
Proof.
  intros e r s' p d m l Hne Hslash Hrun Hin.
  assert (Hpath : GraniteBoot.model_path e
                  = GraniteBoot.script_dir e +:+ "/../Resources/models/llm").
  { unfold GraniteBoot.model_path.
    rewrite (path_join_plain (GraniteBoot.script_dir e) "." ".") by (assumption || reflexivity).
    rewrite (path_join_plain _ "R" "esources");
      [| apply append_nonempty | rewrite ends_with_slash_append; reflexivity | reflexivity].
    rewrite (path_join_plain _ "m" "odels");
      [| apply append_nonempty | rewrite ends_with_slash_append; reflexivity | reflexivity].
    rewrite (path_join_plain _ "l" "lm");
      [| apply append_nonempty | rewrite ends_with_slash_append; reflexivity | reflexivity].
    rewrite !append_assoc. reflexivity. }
  rewrite <- Hpath. clear Hpath Hne Hslash. revert Hrun Hin.
  run_granite_boot e;
    intros Hrun; injection Hrun as <- <-; cbn; intros Hin;
    repeat (destruct Hin as [Hin | Hin]; [try discriminate Hin |]);
    try (exfalso; exact Hin);
    injection Hin as <- <- <- <-; repeat split; reflexivity.
Qed.

Lemma granite_model_is_loaded_from_the_resources_folder_witness :
  In (GraniteBoot.model_from_pretrained "/opt/pcpos/PythonScripts/../Resources/models/llm"
        GraniteBoot.float32 None true)
     (GraniteBoot.log (GraniteBoot.load_model granite_box GraniteBoot.init).2)
  /\ "/opt/pcpos/PythonScripts/../Resources/models/llm"
     = GraniteBoot.script_dir granite_box +:+ "/../Resources/models/llm".
Proof.
  assert (Hin : In (GraniteBoot.model_from_pretrained
                      "/opt/pcpos/PythonScripts/../Resources/models/llm"
                      GraniteBoot.float32 None true)
                   (GraniteBoot.log (GraniteBoot.load_model granite_box GraniteBoot.init).2))
    by (vm_compute; tauto).
  split; [exact Hin |].
  refine (proj1 (granite_model_is_loaded_from_the_resources_folder granite_box _ _ _ _ _ _
                   _ _ _ Hin)).
  - discriminate.
  - reflexivity.
  - vm_compute; reflexivity.
Defined.

(** X24: after [load_model] has returned, [/health] and [/generate] agree:
    [/health] answers "healthy" exactly when [load_model] returned [True],
    and exactly then no request to [/generate] is answered with 503. *)
Theorem granite_health_agrees_with_generate :
  forall (e : GraniteBoot.env) r s' b,
    GraniteBoot.load_model e GraniteBoot.init = (r, s') ->
    r = Ok b ->
    (field "status" (GraniteBoot.health s') = Some (JStr "healthy") <-> b = true)
    /\ (field "status" (GraniteBoot.health s') = Some (JStr "not_loaded") <-> b = false)
    /\ forall (w : GraniteServer.world) (req : request) resp st,
         GraniteServer.generate (GraniteBoot.serving s' w) req [] = (Ok resp, st) ->
         (status resp = 503%Z <-> b = false).
Proof.
  intros e r s' b Hrun Hr. subst r. revert Hrun.
  run_granite_boot e;
    intros Hrun; try discriminate Hrun; injection Hrun as <- <-; cbn;
    (split; [split; intros H; first [reflexivity | discriminate H] |]);
    (split; [split; intros H; first [reflexivity | discriminate H] |]);
    intros w req resp st; unfold_handler; cbn;
    try (intros Hh; injection Hh as <- <-; cbn; split; intros; reflexivity);
    destruct (request_json req) as [[items | v] | e0]; cbn;
    repeat (granite_case; cbn);
    intros Hh; try discriminate Hh; injection Hh as <- <-; cbn;
    split; intros H; discriminate H.
Qed.

Lemma granite_health_agrees_with_generate_witness :
  (GraniteBoot.load_model no_weights GraniteBoot.init).1 = Ok false
  /\ field "status" (GraniteBoot.health (GraniteBoot.load_model no_weights GraniteBoot.init).2)
     = Some (JStr "not_loaded").
Proof.
  assert (H1 : (GraniteBoot.load_model no_weights GraniteBoot.init).1 = Ok false)
    by (vm_compute; reflexivity).
  split; [exact H1 |].
  refine (proj2 (proj1 (proj2 (granite_health_agrees_with_generate no_weights _ _ false _ H1)))
            eq_refl).
  vm_compute; reflexivity.
Defined.



(** * The model smoke test *)

Ltac load_models_case :=
  match goal with
  | |- context [LoadModels.raises ?w ?c] => destruct (LoadModels.raises w c) eqn:?
  end.

(** Every run of load_models.py: each directory there or not, each call
    returning or raising. *)
Ltac run_load_models w :=
  unfold LoadModels.script; hide_strings;
  unfold LoadModels.ext, LoadModels.print, bind, ret, raise;
  generalize (LoadModels.decoded w); intros text;
  destruct (LoadModels.path_exists w LoadModels.granite_model_path) eqn:?;
  destruct (LoadModels.path_exists w LoadModels.llama_model_path) eqn:?;
  cbn -[LoadModels.granite_model_path LoadModels.llama_model_path];
  repeat (load_models_case;
          cbn -[LoadModels.granite_model_path LoadModels.llama_model_path]).

Lemma granite_is_not_llama :
  LoadModels.granite_model_path <> LoadModels.llama_model_path.
Proof. discriminate. Qed.

(** X26: load_models.py ends normally when both model directories exist and
    no library call raises, and only then.  A complete run makes twelve
    calls, the three loads of Granite, the three loads of LLaMA, then the
    test of Granite and the test of LLaMA, and prints six lines, the two
    outputs last, Granite's first. *)
Theorem load_models_complete_run :
  forall (w : LoadModels.world) r s',
    LoadModels.script w LoadModels.init = (r, s') ->
    let g := LoadModels.granite_model_path in
    let l := LoadModels.llama_model_path in
    ((LoadModels.path_exists w g = true /\ LoadModels.path_exists w l = true
      /\ (forall c, LoadModels.raises w c = None)) -> r = Ok tt)
    /\ (r = Ok tt ->
          LoadModels.path_exists w g = true /\ LoadModels.path_exists w l = true
          /\ LoadModels.log s' =
               map (fun c => LoadModels.Ev c None)
                 [LoadModels.model_from_pretrained g; LoadModels.model_eval g;
                  LoadModels.tokenizer_from_pretrained g;
                  LoadModels.model_from_pretrained l; LoadModels.model_eval l;
                  LoadModels.tokenizer_from_pretrained l;
                  LoadModels.tokenize g "Hello world!"; LoadModels.generate g 20;
                  LoadModels.decode g;
                  LoadModels.tokenize l "Hello world!"; LoadModels.generate l 20;
                  LoadModels.decode l]
          /\ LoadModels.stdout s' =
               ["Loading Granite model from '" +:+ g +:+ "' ...";
                "Granite 1B model loaded successfully!" +:+ nl;
                "Loading LLaMA model from '" +:+ l +:+ "' ...";
                "LLaMA 1B model loaded successfully!" +:+ nl;
                "Granite output: " +:+ LoadModels.decoded w g;
                "LLaMA output: " +:+ LoadModels.decoded w l]).
Proof.
  intros w r s'. cbv zeta. run_load_models w;
    intros Hrun; injection Hrun as <- <-;
    (split;
     [ intros (Hg & Hl & Hr); first [reflexivity | discriminate | congruence]
     | intros H; try discriminate H ]).
  repeat split.
Qed.

Lemma load_models_complete_run_witness :
  (LoadModels.script both_models LoadModels.init).1 = Ok tt
  /\ last (LoadModels.stdout (LoadModels.script both_models LoadModels.init).2)
     = Some "LLaMA output: Hello world! I am LLaMA.".
Proof.
  assert (Hrun : LoadModels.script both_models LoadModels.init
                 = ((LoadModels.script both_models LoadModels.init).1,
                    (LoadModels.script both_models LoadModels.init).2))
    by (vm_compute; reflexivity).
  pose proof (load_models_complete_run both_models _ _ Hrun) as [Hok Hshape].
  assert (Hr : (LoadModels.script both_models LoadModels.init).1 = Ok tt)
    by (apply Hok; repeat split; reflexivity).
  split; [exact Hr |].
  destruct (Hshape Hr) as (_ & _ & _ & ->). vm_compute. reflexivity.
Defined.

(** X27: load_models.py has no handler, so it stops at its first failure.
    When it ends with an exception, every call before the last one
    returned.  Either the last call raised that exception, or every call
    returned and the exception is the [FileNotFoundError] of a missing
    directory: Granite's before any call and any output, or LLaMA's after
    the three loads of Granite and the line that reports them. *)
Theorem load_models_stops_at_the_first_failure :
  forall (w : LoadModels.world) r s' ex,
    LoadModels.script w LoadModels.init = (r, s') ->
    r = Raise ex ->
    let g := LoadModels.granite_model_path in
    let l := LoadModels.llama_model_path in
    forallb LoadModels.returned (removelast (LoadModels.log s')) = true
    /\ (forallb LoadModels.returned (LoadModels.log s') = false ->
          exists c, last (LoadModels.log s') = Some (LoadModels.Ev c (Some ex)))
    /\ (forallb LoadModels.returned (LoadModels.log s') = true ->
          (ex = Exn true ("Granite model not found at " +:+ g)
           /\ LoadModels.path_exists w g = false
           /\ LoadModels.log s' = [] /\ LoadModels.stdout s' = [])
          \/ (ex = Exn true ("LLaMA model not found at " +:+ l)
              /\ LoadModels.path_exists w l = false
              /\ map LoadModels.event_call (LoadModels.log s')
                 = [LoadModels.model_from_pretrained g; LoadModels.model_eval g;
                    LoadModels.tokenizer_from_pretrained g]
              /\ last (LoadModels.stdout s')
                 = Some ("Granite 1B model loaded successfully!" +:+ nl))).
Proof.
  intros w r s' ex. cbv zeta. run_load_models w;
    intros Hrun; injection Hrun as <- <-; intros H;
    try discriminate H; injection H as <-;
    (split; [reflexivity |]);
    (split; [intros Hall; first [discriminate Hall | eexists; reflexivity] |]);
    intros Hall; try discriminate Hall; reveal;
    first [ left; repeat split; reflexivity
          | right; repeat split; reflexivity ].
Qed.

Lemma load_models_stops_at_the_first_failure_witness :
  (LoadModels.script granite_only LoadModels.init).1
  = Raise (Exn true "LLaMA model not found at /Users/pcpos/Desktop/MegamanCompanion/llama-1b")
  /\ length (LoadModels.log (LoadModels.script granite_only LoadModels.init).2) = 3
  /\ forallb LoadModels.returned
       (removelast (LoadModels.log
          (LoadModels.script granite_out_of_memory LoadModels.init).2)) = true.
Proof.
  assert (Hrun : LoadModels.script granite_only LoadModels.init
                 = ((LoadModels.script granite_only LoadModels.init).1,
                    (LoadModels.script granite_only LoadModels.init).2))
    by (vm_compute; reflexivity).
  assert (Hr : (LoadModels.script granite_only LoadModels.init).1
               = Raise (Exn true "LLaMA model not found at /Users/pcpos/Desktop/MegamanCompanion/llama-1b"))
    by (vm_compute; reflexivity).
  assert (Hrun' : LoadModels.script granite_out_of_memory LoadModels.init
                 = ((LoadModels.script granite_out_of_memory LoadModels.init).1,
                    (LoadModels.script granite_out_of_memory LoadModels.init).2))
    by (vm_compute; reflexivity).
  assert (Hr' : (LoadModels.script granite_out_of_memory LoadModels.init).1
                = Raise (Exn true "out of memory"))
    by (vm_compute; reflexivity).
  split; [exact Hr |].
  split.
  - destruct (load_models_stops_at_the_first_failure granite_only _ _ _ Hrun Hr)
      as (_ & _ & Hall).
    destruct (Hall ltac:(vm_compute; reflexivity)) as [(_ & Hg & _) | (_ & _ & Hlog & _)].
    + vm_compute in Hg. discriminate Hg.
    + rewrite <- (length_map LoadModels.event_call), Hlog. reflexivity.
  - exact (proj1 (load_models_stops_at_the_first_failure granite_out_of_memory
                    _ _ _ Hrun' Hr')).
Defined.

(** X28: load_models.py works only on directories that [os.path.exists]
    found, and it tests after it has loaded.  A call of the test at the
    end is made only when both directories exist and the six loads
    returned; a call of the test on LLaMA is made only after Granite's
    output has been printed. *)
Theorem load_models_loads_before_it_tests :
  forall (w : LoadModels.world) r s',
    LoadModels.script w LoadModels.init = (r, s') ->
    let g := LoadModels.granite_model_path in
    let l := LoadModels.llama_model_path in
    (forall ev, In ev (LoadModels.log s') ->
       LoadModels.path_exists w (LoadModels.event_path ev) = true)
    /\ (forall ev, In ev (LoadModels.log s') ->
          LoadModels.is_load (LoadModels.event_call ev) = false ->
          firstn 6 (LoadModels.log s')
          = map (fun c => LoadModels.Ev c None)
              [LoadModels.model_from_pretrained g; LoadModels.model_eval g;
               LoadModels.tokenizer_from_pretrained g;
               LoadModels.model_from_pretrained l; LoadModels.model_eval l;
               LoadModels.tokenizer_from_pretrained l]
          /\ In ("LLaMA 1B model loaded successfully!" +:+ nl) (LoadModels.stdout s')
          /\ (LoadModels.event_path ev = l ->
                In ("Granite output: " +:+ LoadModels.decoded w g)
                   (LoadModels.stdout s'))).
Proof.
  intros w r s'. cbv zeta. run_load_models w;
    intros Hrun; injection Hrun as <- <-;
    (split;
     [ cbn -[LoadModels.granite_model_path LoadModels.llama_model_path];
       intros ev Hin;
       repeat (destruct Hin as [<- | Hin]; [assumption |]); destruct Hin
     | cbn -[LoadModels.granite_model_path LoadModels.llama_model_path];
       intros ev Hin Htest;
       repeat (destruct Hin as [<- | Hin];
               [try discriminate Htest |]); try destruct Hin ]);
    (split; [reflexivity |]);
    (split; [reveal; cbn; tauto |]);
    intros Hpath;
    try (exfalso; exact (granite_is_not_llama Hpath));
    reveal; cbn; tauto.
Qed.

Lemma load_models_loads_before_it_tests_witness :
  LoadModels.path_exists granite_out_of_memory LoadModels.llama_model_path = true
  /\ In ("LLaMA 1B model loaded successfully!" +:+ nl)
        (LoadModels.stdout (LoadModels.script granite_out_of_memory LoadModels.init).2).
Proof.
  assert (Hrun : LoadModels.script granite_out_of_memory LoadModels.init
                 = ((LoadModels.script granite_out_of_memory LoadModels.init).1,
                    (LoadModels.script granite_out_of_memory LoadModels.init).2))
    by (vm_compute; reflexivity).
  pose proof (load_models_loads_before_it_tests granite_out_of_memory _ _ Hrun)
    as [Hexists Hloaded].
  split.
  - apply (Hexists (LoadModels.Ev
                      (LoadModels.model_eval LoadModels.llama_model_path) None)).
    vm_compute. tauto.
  - refine (proj1 (proj2 (Hloaded (LoadModels.Ev
              (LoadModels.generate LoadModels.granite_model_path 20)
              (Some (Exn true "out of memory"))) _ eq_refl))).
    vm_compute. tauto.
Defined.
